(** * OSM Conflator: the Postpass query builder and extraction client

    A shallow embedding of [postpass/query_builder.py], [postpass/client.py]
    and the request path of [dialog.py], with the properties the
    specification states about them.

    Python values are embedded as follows.
    - [str] is [string]; a character is a code point below 256.
    - [float] is the kernel's binary64 [float]; an f-string interpolates a
      float through [repr], embedded as [PyFloat.float_str].
    - [None] for an optional argument is [None] of [option].
    - a raised exception is the [inl] of a result; the calls the
      specification counts (query parts built, [run_sql] invocations, HTTP
      posts) are appended to a trace threaded through the [Py] monad. *)

From Stdlib Require Import String Ascii List ZArith Bool Lia.
From Stdlib Require Import PrimFloat FloatOps SpecFloat FloatAxioms.
Import ListNotations.

Local Open Scope list_scope.
Local Open Scope string_scope.

(** ** Python string operations *)

Module PyStr.

(** [str.isspace] on one code point below 256: TAB..CR, FS..US, SPACE,
    NEL (0x85) and NBSP (0xA0). *)
Definition isspace (c : ascii) : bool :=
  let n := nat_of_ascii c in
  (((9 <=? n) && (n <=? 13)) || ((28 <=? n) && (n <=? 32))
   || (n =? 133) || (n =? 160))%nat.

Fixpoint lstrip (s : string) : string :=
  match s with
  | EmptyString => EmptyString
  | String c s' => if isspace c then lstrip s' else s
  end.

Fixpoint rstrip (s : string) : string :=
  match s with
  | EmptyString => EmptyString
  | String c s' =>
      match rstrip s' with
      | EmptyString => if isspace c then EmptyString else String c EmptyString
      | r => String c r
      end
  end.

(** [s.strip()] *)
Definition strip (s : string) : string := rstrip (lstrip s).

(** [sep.join(parts)] *)
Definition join (sep : string) (parts : list string) : string :=
  String.concat sep parts.

(** [s.startswith(p)] *)
Definition startswith (s p : string) : bool := String.prefix p s.

(** [s.endswith(p)] *)
Fixpoint endswith (s p : string) : bool :=
  match s with
  | EmptyString => String.eqb p EmptyString
  | String _ s' => String.eqb s p || endswith s' p
  end.

(** [s.count(sub)] for a non-empty [sub] whose occurrences cannot
    overlap themselves is the number of positions of [s] at which [sub]
    starts; [count] is that number. *)
Fixpoint count (s sub : string) : nat :=
  match s with
  | EmptyString => 0
  | String _ s' => (if String.prefix sub s then 1 else 0) + count s' sub
  end.

(** [sub in s] *)
Definition contains (s sub : string) : Prop :=
  exists before after, s = before ++ sub ++ after.

(** [all(p(c) for c in s)] *)
Fixpoint all_chars (p : ascii -> bool) (s : string) : bool :=
  match s with
  | EmptyString => true
  | String c s' => p c && all_chars p s'
  end.

(** [c in s] for one character *)
Fixpoint has_char (c : ascii) (s : string) : bool :=
  match s with
  | EmptyString => false
  | String c' s' => Ascii.eqb c c' || has_char c s'
  end.

(** [s.split(sep)] for a one-character separator *)
Fixpoint split (sep : ascii) (s : string) : list string :=
  match s with
  | EmptyString => [EmptyString]
  | String c s' =>
      if Ascii.eqb c sep then EmptyString :: split sep s'
      else match split sep s' with
           | [] => [String c EmptyString]
           | p :: ps => String c p :: ps
           end
  end.

(** Truth value of an optional string: [None] and [""] are false. *)
Definition truthy (s : option string) : bool :=
  match s with
  | None => false
  | Some s => negb (String.eqb s EmptyString)
  end.

Fixpoint repeat (c : ascii) (n : nat) : string :=
  match n with
  | O => EmptyString
  | S n' => String c (repeat c n')
  end.

End PyStr.

(** ** Python's [repr] of a float *)

Module PyFloat.

Definition digit_char (d : Z) : ascii :=
  match d with
  | 0%Z => "0" | 1%Z => "1" | 2%Z => "2" | 3%Z => "3" | 4%Z => "4"
  | 5%Z => "5" | 6%Z => "6" | 7%Z => "7" | 8%Z => "8" | _ => "9"
  end%char.

Fixpoint digits_fuel (fuel : nat) (z : Z) (acc : string) : string :=
  match fuel with
  | O => acc
  | S fuel' =>
      let acc' := String (digit_char (z mod 10)) acc in
      if (z <? 10)%Z then acc' else digits_fuel fuel' (z / 10) acc'
  end.

(** Decimal digits of a non-negative integer, most significant first. *)
Definition digits (z : Z) : string :=
  digits_fuel (S (Z.to_nat (Z.log2 z))) z EmptyString.

(** Digits without their trailing zeros. *)
Fixpoint significant (s : string) : string :=
  match s with
  | EmptyString => EmptyString
  | String c s' =>
      match significant s' with
      | EmptyString =>
          if Ascii.eqb c "0" then EmptyString else String c EmptyString
      | r => String c r
      end
  end.

(** [scaled_cmp c k x e] compares [c * 10^k] with [x * 2^e]. *)
Definition scaled_cmp (c k x e : Z) : comparison :=
  ((c * 10 ^ Z.max k 0 * 2 ^ Z.max (- e) 0)
   ?= (x * 10 ^ Z.max (- k) 0 * 2 ^ Z.max e 0))%Z.

(** [floor (x * 2^e / 10^k)] *)
Definition scaled_floor (x e k : Z) : Z :=
  ((x * 2 ^ Z.max e 0 * 10 ^ Z.max (- k) 0)
   / (2 ^ Z.max (- e) 0 * 10 ^ Z.max k 0))%Z.

(** The least [p] from [p] on with [m * 2^e < 10^p]. *)
Fixpoint decimal_point (fuel : nat) (m e p : Z) : Z :=
  match fuel with
  | O => p
  | S fuel' =>
      match scaled_cmp 1 p m e with
      | Gt => p
      | _ => decimal_point fuel' m e (p + 1)
      end
  end.

(** A power of ten below [m * 2^e], from its binary length and
    [log10 2 < 0.30103]. *)
Definition decimal_point_start (m e : Z) : Z :=
  ((Z.log2 m + e) * 30103 / 100000 - 1)%Z.

(** The rounding interval of [m * 2^e] in units of [2^(e-2)]: every real
    strictly inside (and the end points, when [m] is even) rounds to the
    float. Below a power of two the neighbour is half as far. *)
Definition interval (m e : Z) : Z * Z :=
  let low :=
    if ((m =? 2 ^ 52) && (-1074 <? e))%Z then (4 * m - 1)%Z
    else (4 * m - 2)%Z in
  (low, (4 * m + 2)%Z).

Definition in_interval (m e c k : Z) : bool :=
  let '(low, high) := interval m e in
  let above := scaled_cmp c k low (e - 2) in
  let below := scaled_cmp c k high (e - 2) in
  if Z.even m
  then negb (match above with Lt => true | _ => false end)
       && negb (match below with Gt => true | _ => false end)
  else (match above with Gt => true | _ => false end)
       && (match below with Lt => true | _ => false end).

(** The candidates with [n] digits nearest to [m * 2^e]: the one that
    rounds back to the float, the nearer when both do. *)
Definition candidate (m e p : Z) (n : nat) : option (Z * Z) :=
  let k := (p - Z.of_nat n)%Z in
  let c_lo := scaled_floor m e k in
  let c_hi := (c_lo + 1)%Z in
  match in_interval m e c_lo k, in_interval m e c_hi k with
  | false, false => None
  | true, false => Some (c_lo, k)
  | false, true => Some (c_hi, k)
  | true, true =>
      match scaled_cmp (c_lo + c_hi) k (2 * m) e with
      | Gt => Some (c_lo, k)
      | Lt => Some (c_hi, k)
      | Eq => Some (if Z.even c_lo then c_lo else c_hi, k)
      end
  end.

Fixpoint shortest_from (fuel : nat) (m e p : Z) (n : nat) : Z * Z :=
  match fuel with
  | O => (scaled_floor m e (p - Z.of_nat n), (p - Z.of_nat n)%Z)
  | S fuel' =>
      match candidate m e p n with
      | Some ck => ck
      | None => shortest_from fuel' m e p (S n)
      end
  end.

(** The shortest digit string that rounds to [m * 2^e], with the
    position of the decimal point: the value is [0.d1d2... * 10^decpt]. *)
Definition shortest (m e : Z) : string * Z :=
  let p := decimal_point 8 m e (decimal_point_start m e) in
  let '(c, k) := shortest_from 17 m e p 1 in
  let ds := digits c in
  (significant ds, (Z.of_nat (String.length ds) + k)%Z).

(** The exponent of the scientific form: a sign and at least two digits. *)
Definition exponent_str (x : Z) : string :=
  let a := digits (Z.abs x) in
  (if (x <? 0)%Z then "-" else "+")
  ++ (if (Z.abs x <? 10)%Z then "0" else "") ++ a.

Definition with_point (ds : string) (decpt : Z) : string :=
  let n := Z.of_nat (String.length ds) in
  if (decpt <=? 0)%Z then
    "0." ++ PyStr.repeat "0" (Z.to_nat (- decpt)) ++ ds
  else if (decpt <? n)%Z then
    substring 0 (Z.to_nat decpt) ds ++ "."
    ++ substring (Z.to_nat decpt) (Z.to_nat (n - decpt)) ds
  else
    ds ++ PyStr.repeat "0" (Z.to_nat (decpt - n)) ++ ".0".

(** [repr] of a positive finite float from its digits: scientific form
    when the decimal point lies outside -4 < decpt <= 16. *)
Definition format_short (ds : string) (decpt : Z) : string :=
  if ((decpt <=? -4) || (16 <? decpt))%Z then
    (match ds with
     | String d EmptyString => String d EmptyString
     | String d rest => String d ("." ++ rest)
     | EmptyString => EmptyString
     end) ++ "e" ++ exponent_str (decpt - 1)
  else with_point ds decpt.

Definition sign_str (negative : bool) : string :=
  if negative then "-" else "".

(** [repr(x)], which is also [str(x)] and [f"{x}"]. *)
Definition float_str (x : float) : string :=
  match Prim2SF x with
  | S754_nan => "nan"
  | S754_infinity s => sign_str s ++ "inf"
  | S754_zero s => sign_str s ++ "0.0"
  | S754_finite s m e =>
      let '(ds, decpt) := shortest (Zpos m) e in
      sign_str s ++ format_short ds decpt
  end.

(** The characters a [repr] is made of. *)
Definition float_char (c : ascii) : bool :=
  PyStr.has_char c "0123456789.e+-infa".

End PyFloat.

(** ** Exceptions, observed calls and the monad that threads them *)

(** A decoded JSON document ([json.loads]): a [dict] keeps its items in
    document order. *)
#[warnings="-register-all"]
Inductive json : Type :=
| JNull
| JBool (b : bool)
| JInt (z : Z)
| JFloat (f : float)
| JStr (s : string)
| JList (items : list json)
| JDict (items : list (string * json)).

(** [isinstance(payload, dict)] *)
Definition is_dict (payload : json) : bool :=
  match payload with
  | JDict _ => true
  | _ => false
  end.

(** The exceptions of the program. [LowLevelError] stands for any other
    [Exception] a library call raises ([URLError], [TimeoutError], [OSError],
    [UnicodeDecodeError], [JSONDecodeError], ...); every constructor carries
    [str(exc)]. *)
Inductive exn : Type :=
| ValueError (msg : string)
| PostpassClientError (msg : string)
| LowLevelError (msg : string).

(** [str(exc)] *)
Definition str_exn (e : exn) : string :=
  match e with
  | ValueError msg => msg
  | PostpassClientError msg => msg
  | LowLevelError msg => msg
  end.

(** [urllib.request.Request(url, data=..., method=...)], by the attributes
    [full_url], [data] and [method] of the object. *)
Record Request : Type := mkRequest {
  full_url : string;
  data : list Byte.byte;
  method : string
}.

Inductive query_part : Type := ColumnList | BboxFilter | TagClause.

(** The calls a run performs, in order: a query part built by one of the
    [create_*] helpers, an entry into [run_sql], a [urlopen]. *)
Inductive event : Type :=
| Built (part : query_part)
| RunSql (sql : string)
| UrlOpen (request : Request) (timeout : Z).

(** A computation that may raise, and appends the calls it makes to the
    trace so far. *)
Definition Py (A : Type) : Type := list event -> (exn + A) * list event.

Definition ret {A : Type} (a : A) : Py A := fun t => (inr a, t).

Definition raise {A : Type} (e : exn) : Py A := fun t => (inl e, t).

Definition bind {A B : Type} (m : Py A) (k : A -> Py B) : Py B :=
  fun t =>
    match m t with
    | (inl e, t') => (inl e, t')
    | (inr a, t') => k a t'
    end.

Definition emit (ev : event) : Py unit := fun t => (inr tt, (t ++ [ev])%list).

(** [try: m  except Exception as exc: handler exc] *)
Definition try_except {A : Type} (m : Py A) (handler : exn -> Py A) : Py A :=
  fun t =>
    match m t with
    | (inl e, t') => handler e t'
    | (inr a, t') => (inr a, t')
    end.

Declare Scope py_scope.
Delimit Scope py_scope with py.
Notation "x <- m ;; k" := (bind m (fun x => k))
  (at level 61, m at next level, right associativity) : py_scope.
Notation "m ;;; k" := (bind m (fun _ => k))
  (at level 61, right associativity) : py_scope.
Local Open Scope py_scope.

(** The result and the calls of a computation started on an empty trace. *)
Definition result {A : Type} (m : Py A) : exn + A := fst (m []).
Definition calls {A : Type} (m : Py A) : list event := snd (m []).

(** ** postpass/query_builder.py *)

Module QueryBuilder.
Import PyStr.

(** [BBox = Tuple[float, float, float, float]] *)
Definition BBox : Type := (float * float * float * float)%type.

(** [seq or []] *)
Definition or_empty {A : Type} (seq : option (list A)) : list A :=
  match seq with
  | Some l => l
  | None => []
  end.

(** The one-character string holding a double quote. *)
Definition dquote : string := String (ascii_of_nat 34) EmptyString.

(** The loop of [create_column_filter]: the projections appended for
    [columns], in order. *)
Fixpoint column_projections (columns : list string) : list string :=
  match columns with
  | [] => []
  | col :: rest =>
      let col := strip col in
      if (col =? "") || (col =? "*") then column_projections rest
      else ("tags->>'" ++ col ++ "' as " ++ dquote ++ col ++ dquote)
           :: column_projections rest
  end.

Definition create_column_filter (columns : list string)
    (use_centroid : bool) : string :=
  let select_cols := (["osm_id"; "tags"] ++ column_projections columns)%list in
  let geom_expr := if use_centroid then "ST_Centroid(geom) as geom" else "geom" in
  let select_cols := (select_cols ++ [geom_expr])%list in
  join ", " select_cols.

Definition create_bbox_filter (bbox : BBox) (geom_col : string) : string :=
  let '(min_lon, min_lat, max_lon, max_lat) := bbox in
  geom_col ++ " && "
  ++ "ST_SetSRID("
  ++ "ST_MakeBox2D("
  ++ "ST_MakePoint(" ++ PyFloat.float_str min_lon ++ ", "
  ++ PyFloat.float_str min_lat ++ "),"
  ++ "ST_MakePoint(" ++ PyFloat.float_str max_lon ++ ", "
  ++ PyFloat.float_str max_lat ++ ")"
  ++ "), 4326)".

(** [[v for v in (values or []) if v is not None and v != ""]] *)
Fixpoint drop_empty (values : list (option string)) : list string :=
  match values with
  | [] => []
  | None :: rest => drop_empty rest
  | Some v :: rest =>
      if v =? "" then drop_empty rest else v :: drop_empty rest
  end.

Definition quoted (v : string) : string := "'" ++ strip v ++ "'".

Definition create_tag_filter (key : string)
    (values : option (list (option string))) : string :=
  let cleaned := drop_empty (or_empty values) in
  let cleaned :=
    if (length cleaned =? 1)%nat && (nth 0 cleaned "" =? "*")
    then [] else cleaned in
  if (length cleaned =? 0)%nat then
    "tags ? '" ++ strip key ++ "'"
  else if (length cleaned =? 1)%nat then
    "tags->>'" ++ strip key ++ "' = '" ++ strip (nth 0 cleaned "") ++ "'"
  else
    let in_list := join ", " (map quoted cleaned) in
    "tags->>'" ++ strip key ++ "' IN (" ++ in_list ++ ")".

(** A helper call, recorded in the trace. *)
Definition building {A : Type} (part : query_part) (value : A) : Py A :=
  emit (Built part) ;;; ret value.

Definition build_simple_query (table : option string) (bbox : BBox)
    (columns : option (list string)) (tag_key : option string)
    (tag_values : option (list (option string)))
    (use_centroid : bool) : Py string :=
  match table with
  | Some table_name =>
      if table_name =? "" then
        raise (ValueError "table is required for Postpass query.")
      else
        select_sql <- building ColumnList
                        (create_column_filter (or_empty columns) use_centroid) ;;
        bbox_sql <- building BboxFilter (create_bbox_filter bbox "geom") ;;
        where_clauses <-
          (match tag_key with
           | Some key =>
               if key =? "" then ret [bbox_sql]
               else
                 tag_sql <- building TagClause
                              (create_tag_filter key (Some (or_empty tag_values))) ;;
                 ret [bbox_sql; tag_sql]
           | None => ret [bbox_sql]
           end) ;;
        let where_sql := join " AND " where_clauses in
        ret ("SELECT " ++ select_sql ++ " FROM " ++ table_name
             ++ " WHERE " ++ where_sql)
  | None => raise (ValueError "table is required for Postpass query.")
  end.

End QueryBuilder.

(** ** postpass/client.py *)

Module Client.
Import PyStr.

Definition DEFAULT_POSTPASS_ENDPOINT : string :=
  "https://postpass.geofabrik.de/api/0.2/interpreter".

Record PostpassClient : Type := mkPostpassClient {
  endpoint : string;
  timeout : Z
}.

(** [PostpassClient()] with the defaults of [__init__]. *)
Definition default_client : PostpassClient :=
  mkPostpassClient DEFAULT_POSTPASS_ENDPOINT 60.

(** *** [urlencode({"data": sql})] *)

Definition hex_digit (n : nat) : ascii :=
  match n with
  | 0 => "0" | 1 => "1" | 2 => "2" | 3 => "3" | 4 => "4" | 5 => "5"
  | 6 => "6" | 7 => "7" | 8 => "8" | 9 => "9" | 10 => "A" | 11 => "B"
  | 12 => "C" | 13 => "D" | 14 => "E" | _ => "F"
  end%char.

Definition percent (byte : nat) : string :=
  String "%" (String (hex_digit (byte / 16))
                (String (hex_digit (byte mod 16)) EmptyString)).

(** Letters, digits and [_.-~] are never quoted. *)
Definition always_safe (n : nat) : bool :=
  (((65 <=? n) && (n <=? 90)) || ((97 <=? n) && (n <=? 122))
   || ((48 <=? n) && (n <=? 57))
   || (n =? 95) || (n =? 46) || (n =? 45) || (n =? 126))%nat.

(** [quote_plus]: a space becomes [+], any other unsafe character the
    percent-escapes of its UTF-8 bytes. *)
Fixpoint quote_plus (s : string) : string :=
  match s with
  | EmptyString => EmptyString
  | String c s' =>
      let n := nat_of_ascii c in
      (if always_safe n then String c EmptyString
       else if (n =? 32)%nat then "+"
       else if (n <? 128)%nat then percent n
       else percent (192 + n / 64) ++ percent (128 + n mod 64))
      ++ quote_plus s'
  end.

Definition urlencode_data (sql : string) : string :=
  "data=" ++ quote_plus sql.

(** [text.encode("utf-8")] of ASCII text *)
Definition encode_ascii (text : string) : list Byte.byte :=
  list_byte_of_string text.

(** *** The URL a [Request] holds *)

(** [urllib.parse.unwrap]: the URL without the white space around it, the
    angle brackets around it and a leading [URL:]. *)
Definition unwrap (url : string) : string :=
  let url := strip url in
  let url :=
    if startswith url "<" && endswith url ">"
    then strip (substring 1 (String.length url - 2) url) else url in
  if startswith url "URL:" then strip (substring 4 (String.length url - 4) url)
  else url.

(** [urllib.parse._splittag]: [url.rpartition("#")], the URL cut at its
    last [#]. *)
Fixpoint _splittag (url : string) : string * option string :=
  match url with
  | EmptyString => (EmptyString, None)
  | String c rest =>
      match _splittag rest with
      | (path, Some tag) => (String c path, Some tag)
      | (_, None) =>
          if Ascii.eqb c "#" then (EmptyString, Some rest) else (url, None)
      end
  end.

(** [Request(url, ...).full_url]: the setter unwraps the URL and splits the
    fragment off, the getter puts a fragment that is not empty back. *)
Definition Request_full_url (url : string) : string :=
  match _splittag (unwrap url) with
  | (path, Some tag) => if tag =? "" then path else path ++ "#" ++ tag
  | (path, None) => path
  end.

Section Host.

(** The interpreter's library, by what the client observes of it:
    - [url_error url]: the message of the [ValueError] that
      [Request(url, ...)] raises for a URL it cannot read (one without a
      scheme, for one), if any;
    - [transport request timeout]: what [urlopen(request, timeout=...)]
      followed by [resp.read()] yields, the bytes of the body or
      [str(exc)] of the exception raised;
    - [json_loads raw]: [json.loads(raw.decode("utf-8"))], the decoded
      document or [str(exc)] of the exception raised. *)
Variable url_error : string -> option string.
Variable transport : Request -> Z -> string + list Byte.byte.
Variable json_loads : list Byte.byte -> string + json.

Definition Request_init (url : string) (body : list Byte.byte)
    (meth : string) : Py Request :=
  match url_error url with
  | Some msg => raise (ValueError msg)
  | None => ret (mkRequest (Request_full_url url) body meth)
  end.

Definition urlopen_read (request : Request) (tmo : Z) : Py (list Byte.byte) :=
  emit (UrlOpen request tmo) ;;;
  match transport request tmo with
  | inl msg => raise (LowLevelError msg)
  | inr raw => ret raw
  end.

Definition loads (raw : list Byte.byte) : Py json :=
  match json_loads raw with
  | inl msg => raise (LowLevelError msg)
  | inr payload => ret payload
  end.

Definition run_sql (self : PostpassClient) (sql : string) : Py json :=
  emit (RunSql sql) ;;;
  if endpoint self =? "" then
    raise (PostpassClientError "PostPass endpoint is required.")
  else if (sql =? "") || (strip sql =? "") then
    raise (PostpassClientError "SQL query is required.")
  else
    let body := encode_ascii (urlencode_data sql) in
    request <- Request_init (endpoint self) body "POST" ;;
    raw <- try_except (urlopen_read request (timeout self))
             (fun exc =>
                raise (PostpassClientError
                         ("HTTP request failed: " ++ str_exn exc))) ;;
    payload <- try_except (loads raw)
                 (fun exc =>
                    raise (PostpassClientError
                             "PostPass response was not valid JSON.")) ;;
    if negb (is_dict payload) then
      raise (PostpassClientError
               "PostPass response must be a GeoJSON object.")
    else ret payload.

Definition extract_buildings (self : PostpassClient)
    (bbox : QueryBuilder.BBox) : Py json :=
  sql <- QueryBuilder.build_simple_query
           (Some "postpass_pointpolygon") bbox (Some [])
           (Some "building") (Some [Some "yes"]) false ;;
  run_sql self sql.

End Host.

End Client.

(** ** Optional strings in f-strings *)

Module PyOpt.

(** [f"{v}"] for [v] a string or [None]. *)
Definition fstr (v : option string) : string :=
  match v with
  | Some text => text
  | None => "None"
  end.

End PyOpt.

(** ** dialog.py: from the form to the fetched document *)

Module Dialog.
Import PyStr Client.

(** The contents of the form when the run button is clicked. *)
Record Form : Type := mkForm {
  endpointEdit : string;
  geomCombo : string;       (* currentData(): the table or view name *)
  bboxEdit : string;
  tagKeyEdit : string;
  tagValueEdit : string;
  layerNameEdit : string
}.

(** What [_on_run_clicked] has done when it returns early, or reaches the
    point where the document is written to a file and loaded as a layer by
    the host application. *)
Inductive outcome : Type :=
| ShowError (message : string)
| Fetched (geojson : json) (table_name : string)
          (tag_key tag_value : option string).

(** [text or None] *)
Definition or_none (text : string) : option string :=
  if text =? "" then None else Some text.

Section Host.

Variable url_error : string -> option string.
Variable transport : Request -> Z -> string + list Byte.byte.
Variable json_loads : list Byte.byte -> string + json.

(** [float(text)]: [None] when it raises [ValueError]. *)
Variable float_of_str : string -> option float.

(** [_parse_bbox]: the bounding box, or the message passed to
    [_set_error]. *)
Definition _parse_bbox (form : Form) : string + QueryBuilder.BBox :=
  let text := strip (bboxEdit form) in
  if text =? "" then
    inl ("Please enter a bounding box in the form "
         ++ "min_lon,min_lat,max_lon,max_lat.")
  else
    let parts := map strip (split "," text) in
    match parts with
    | [p1; p2; p3; p4] =>
        match float_of_str p1, float_of_str p2,
              float_of_str p3, float_of_str p4 with
        | Some min_lon, Some min_lat, Some max_lon, Some max_lat =>
            if (max_lon <=? min_lon)%float || (max_lat <=? min_lat)%float
            then inl "Bounding box min values must be less than max values."
            else inr (min_lon, min_lat, max_lon, max_lat)
        | _, _, _, _ => inl "Bounding box values must be numeric."
        end
    | _ => inl "Bounding box must have exactly four comma-separated values."
    end.

(** [except (ValueError, PostpassClientError) as exc] *)
Definition caught (e : exn) : bool :=
  match e with
  | ValueError _ | PostpassClientError _ => true
  | LowLevelError _ => false
  end.

Definition _on_run_clicked (form : Form) : Py outcome :=
  match _parse_bbox form with
  | inl message => ret (ShowError message)
  | inr bbox =>
      let table_name := geomCombo form in
      let tag_key := or_none (strip (tagKeyEdit form)) in
      let tag_value := or_none (strip (tagValueEdit form)) in
      let endpoint := strip (endpointEdit form) in
      if endpoint =? "" then
        ret (ShowError "Please enter a Postpass endpoint URL.")
      else
        let client := mkPostpassClient endpoint 60 in
        try_except
          (match tag_key with
           | None =>
               geojson <- extract_buildings url_error transport json_loads
                            client bbox ;;
               ret (Fetched geojson "postpass_pointpolygon"
                      (Some "building") (Some "yes"))
           | Some key =>
               sql <- QueryBuilder.build_simple_query
                        (Some table_name) bbox (Some []) (Some key)
                        (Some (match tag_value with
                               | Some v => [Some v]
                               | None => []
                               end)) false ;;
               geojson <- run_sql url_error transport json_loads client sql ;;
               ret (Fetched geojson table_name tag_key tag_value)
           end)
          (fun exc =>
             if caught exc then ret (ShowError (str_exn exc))
             else raise exc)
  end.

End Host.

(** The name of the layer the fetched document is loaded as (the end of
    [_on_run_clicked]), from the form and the table and tag filter the
    request ended with. *)
Definition layer_name (form : Form) (table_name : string)
    (tag_key tag_value : option string) : string :=
  let name := strip (layerNameEdit form) in
  if name =? "" then
    if truthy tag_key && truthy tag_value then
      table_name ++ " " ++ PyOpt.fstr tag_key ++ "=" ++ PyOpt.fstr tag_value
    else if truthy tag_key then
      table_name ++ " " ++ PyOpt.fstr tag_key
    else table_name
  else name.

End Dialog.

(** ** postpass/__init__.py: the first query builder *)

Module Postpass.

(** [_bbox_where(bbox, geom_column="geom")] *)
Definition _bbox_where (bbox : QueryBuilder.BBox) (geom_column : string)
    : string :=
  let '(min_lon, min_lat, max_lon, max_lat) := bbox in
  geom_column ++ " && "
  ++ "ST_SetSRID("
  ++ "ST_MakeBox2D("
  ++ "ST_MakePoint(" ++ PyFloat.float_str min_lon ++ ", "
  ++ PyFloat.float_str min_lat ++ "),"
  ++ "ST_MakePoint(" ++ PyFloat.float_str max_lon ++ ", "
  ++ PyFloat.float_str max_lat ++ ")"
  ++ "), 4326)".

(** [_tag_where(tag_key, tag_value)]: [None] without a key, a presence test
    without a value, an equality otherwise; nothing is stripped. *)
Definition _tag_where (tag_key tag_value : option string) : option string :=
  if negb (PyStr.truthy tag_key) then None
  else
    match tag_value with
    | None => Some ("tags ? '" ++ PyOpt.fstr tag_key ++ "'")
    | Some value =>
        if value =? "" then Some ("tags ? '" ++ PyOpt.fstr tag_key ++ "'")
        else Some ("tags->>'" ++ PyOpt.fstr tag_key ++ "' = '" ++ value ++ "'")
    end.

Definition build_simple_bbox_query (table_name : option string)
    (bbox : QueryBuilder.BBox) (tag_key tag_value : option string)
    (select_columns : option (list string)) : exn + string :=
  if negb (PyStr.truthy table_name) then
    inl (ValueError "table_name is required for Postpass query.")
  else
    let select_columns :=
      match select_columns with
      | None => ["tags"]
      | Some cols => cols
      end in
    let columns_sql := PyStr.join ", " (select_columns ++ ["geom"])%list in
    let where_clauses := [_bbox_where bbox "geom"] in
    let tag_clause := _tag_where tag_key tag_value in
    let where_clauses :=
      if PyStr.truthy tag_clause
      then (where_clauses ++ [PyOpt.fstr tag_clause])%list
      else where_clauses in
    let where_sql := PyStr.join " AND " where_clauses in
    inr ("SELECT " ++ columns_sql ++ " FROM " ++ PyOpt.fstr table_name
         ++ " WHERE " ++ where_sql).

End Postpass.

(** ** Reading a trace *)

(** The SQL of every [run_sql] call, in order. *)
Definition run_sql_calls (tr : list event) : list string :=
  flat_map (fun ev => match ev with RunSql sql => [sql] | _ => [] end) tr.

(** The request and timeout of every HTTP call, in order. *)
Definition http_calls (tr : list event) : list (Request * Z) :=
  flat_map (fun ev => match ev with UrlOpen r tmo => [(r, tmo)] | _ => [] end) tr.

(** The query parts built, in order. *)
Definition built_parts (tr : list event) : list query_part :=
  flat_map (fun ev => match ev with Built part => [part] | _ => [] end) tr.

(** ** The vocabulary of the specification *)

Module Spec.
Import PyStr.

(** The error taxonomy of the specification. The code has two exception
    classes, [ValueError] in the builder and [PostpassClientError] in the
    client, and tells the failures apart by message: [error_kind] reads the
    kind off the exception raised. *)
Inductive ErrorKind : Type :=
| InvalidRequest
| ConfigurationError
| TransportError
| MalformedResponse.

Definition error_kind (e : exn) : option ErrorKind :=
  match e with
  | ValueError msg =>
      if msg =? "table is required for Postpass query."
      then Some InvalidRequest else None
  | PostpassClientError msg =>
      if msg =? "SQL query is required." then Some InvalidRequest
      else if msg =? "PostPass endpoint is required." then Some ConfigurationError
      else if startswith msg "HTTP request failed: " then Some TransportError
      else if (msg =? "PostPass response was not valid JSON.")
              || (msg =? "PostPass response must be a GeoJSON object.")
      then Some MalformedResponse
      else None
  | LowLevelError _ => None
  end.

(** The run fails with an error of the given kind. *)
Definition fails_with {A : Type} (outcome : exn + A) (kind : ErrorKind) : Prop :=
  exists e, outcome = inl e /\ error_kind e = Some kind.

(** A string that is empty or holds white space only. *)
Definition blank (s : string) : Prop := all_chars isspace s = true.

(** The three predicates of the tag filter policy: the key is present;
    the key has the value [v]; the key has one of the values [vs]. *)
Definition presence_only (key : string) : string :=
  "tags ? '" ++ strip key ++ "'".

Definition equality (key v : string) : string :=
  "tags->>'" ++ strip key ++ "' = '" ++ strip v ++ "'".

Definition membership (key : string) (vs : list string) : string :=
  "tags->>'" ++ strip key ++ "' IN ("
  ++ join ", " (map (fun v => "'" ++ strip v ++ "'") vs) ++ ")".

Record TagFilter : Type := mkTagFilter {
  filter_key : string;
  filter_values : list string
}.

Record ExtractionRequest : Type := mkExtractionRequest {
  table : option string;
  bbox : QueryBuilder.BBox;
  columns : list string;
  tag_filter : option TagFilter;
  use_centroid : bool
}.

(** [build_query(request)]: the builder applied to the fields of the
    request record. *)
Definition build_query (request : ExtractionRequest) : Py string :=
  QueryBuilder.build_simple_query
    (table request) (bbox request) (Some (columns request))
    (option_map filter_key (tag_filter request))
    (option_map (fun f => map Some (filter_values f)) (tag_filter request))
    (use_centroid request).

(** The request the specification gives for [extract_buildings]: the
    combined point and polygon view, the tag filter building = "yes", no
    extra projected column. *)
Definition buildings_request (b : QueryBuilder.BBox) : ExtractionRequest :=
  mkExtractionRequest (Some "postpass_pointpolygon") b []
    (Some (mkTagFilter "building" ["yes"])) false.

(** [extract_buildings] as the specification words it: build that query,
    then call [run_sql] on it. *)
Definition extract_buildings_spec
    (run_sql : string -> Py json) (b : QueryBuilder.BBox) : Py json :=
  sql <- build_query (buildings_request b) ;;
  run_sql sql.

End Spec.

(** ** Transport stubs *)

Module Stub.

(** Every URL has a scheme. *)
Definition url_ok : string -> option string := fun _ => None.

(** [urllib.parse._splittype] finds a scheme: the URL starts with one or
    more characters other than [/] and [:], and a [:] follows them. *)
Fixpoint scheme_ends (url : string) : bool :=
  match url with
  | EmptyString => false
  | String c rest =>
      if Ascii.eqb c ":" then true
      else if Ascii.eqb c "/" then false
      else scheme_ends rest
  end.

Definition has_scheme (url : string) : bool :=
  match url with
  | EmptyString => false
  | String c rest =>
      negb (Ascii.eqb c ":") && negb (Ascii.eqb c "/") && scheme_ends rest
  end.

(** A [Request] that checks the scheme, as urllib's does first
    ([Request._parse]): without one it raises
    [ValueError("unknown url type: %r" % self.full_url)]. The [repr] of a
    text without quotes, backslashes and control characters is the text
    between single quotes. *)
Definition url_checked (url : string) : option string :=
  if has_scheme (fst (Client._splittag (Client.unwrap url))) then None
  else Some ("unknown url type: '" ++ Client.Request_full_url url ++ "'").

(** A client whose endpoint was entered without its scheme. *)
Definition client_without_scheme : Client.PostpassClient :=
  Client.mkPostpassClient "example.org/api" 60.

(** The server answers every request with [body]. *)
Definition answering (body : string) : Request -> Z -> string + list Byte.byte :=
  fun _ _ => inr (list_byte_of_string body).

(** Every request fails with an exception whose text is [msg]. *)
Definition failing (msg : string) : Request -> Z -> string + list Byte.byte :=
  fun _ _ => inl msg.

(** [json.loads] on the bodies the stubs answer with: the array [[1,2,3]],
    the empty object, and text that is no JSON. *)
Definition json_loads (raw : list Byte.byte) : string + json :=
  let text := string_of_list_byte raw in
  if text =? "[1,2,3]" then inr (JList [JInt 1; JInt 2; JInt 3])
  else if text =? "{}" then inr (JDict [])
  else inl "Expecting value: line 1 column 1 (char 0)".

(** [float] on the texts the examples enter. *)
Definition float_of_str (text : string) : option float :=
  if text =? "1.0" then Some 1%float
  else if text =? "-1.0" then Some (-1)%float
  else if text =? "0.0" then Some 0%float
  else None.

Definition client : Client.PostpassClient := Client.default_client.

End Stub.

(** ** Reading a form body back *)

Module Form.

(** The characters a quoted form value is made of: the ones never quoted,
    [+] for a space and [%] before two hexadecimal digits. *)
Definition form_char (c : ascii) : bool :=
  Client.always_safe (nat_of_ascii c) || Ascii.eqb c "+" || Ascii.eqb c "%".

(** [c] is an ASCII character. *)
Definition is_ascii (c : ascii) : bool := (nat_of_ascii c <? 128)%nat.

Definition hex_value (c : ascii) : nat :=
  match c with
  | "0" => 0 | "1" => 1 | "2" => 2 | "3" => 3 | "4" => 4 | "5" => 5
  | "6" => 6 | "7" => 7 | "8" => 8 | "9" => 9 | "A" => 10 | "B" => 11
  | "C" => 12 | "D" => 13 | "E" => 14 | _ => 15
  end%char.

(** What the server reads from a value written by [quote_plus]
    ([urllib.parse.unquote_plus] on such a value): [+] is a space, [%XY] a
    byte, and a byte from 0xC0 on starts a two-byte UTF-8 sequence. *)
Fixpoint unquote_plus (s : string) : string :=
  match s with
  | EmptyString => EmptyString
  | String "+" rest => String " " (unquote_plus rest)
  | String "%" (String h1 (String h2 rest)) =>
      let byte := 16 * hex_value h1 + hex_value h2 in
      if (byte <? 128)%nat then String (ascii_of_nat byte) (unquote_plus rest)
      else
        match rest with
        | String "%" (String h3 (String h4 rest')) =>
            let byte' := 16 * hex_value h3 + hex_value h4 in
            String (ascii_of_nat ((byte - 192) * 64 + (byte' - 128)))
              (unquote_plus rest')
        | _ => String "%" (String h1 (String h2 (unquote_plus rest)))
        end
  | String c rest => String c (unquote_plus rest)
  end.

End Form.

(** ** A number parser that knows [nan] *)

Module StubNaN.

(** [float] on ["nan"] and on the texts of [Stub.float_of_str]. *)
Definition float_of_str (text : string) : option float :=
  if text =? "nan" then Some nan else Stub.float_of_str text.

End StubNaN.

(** * Properties *)

Import PyStr.

Arguments PyStr.strip : simpl never.
Arguments PyFloat.float_str : simpl never.

(** ** Strings *)

Lemma append_nil_r (s : string) : s ++ "" = s.
Proof. induction s as [|c s IH]; simpl; [reflexivity | now rewrite IH]. Qed.

Lemma append_assoc (a b c : string) : (a ++ b) ++ c = a ++ b ++ c.
Proof. induction a as [|x a IH]; simpl; [reflexivity | now rewrite IH]. Qed.

Lemma contains_self (s : string) : contains s s.
Proof. exists "", "". simpl. now rewrite append_nil_r. Qed.

Lemma contains_app_r (a b sub : string) :
  contains b sub -> contains (a ++ b) sub.
Proof.
  intros (before & after & ->). exists (a ++ before), after.
  now rewrite append_assoc.
Qed.

Lemma contains_app_l (a b sub : string) :
  contains a sub -> contains (a ++ b) sub.
Proof.
  intros (before & after & ->). exists before, (after ++ b).
  now rewrite !append_assoc.
Qed.

Lemma join_cons (sep x y : string) (rest : list string) :
  join sep (x :: y :: rest) = x ++ sep ++ join sep (y :: rest).
Proof. reflexivity. Qed.

Lemma contains_join (sep x : string) (parts : list string) :
  In x parts -> contains (join sep parts) x.
Proof.
  induction parts as [|y parts IH]; intros Hin; [destruct Hin|].
  destruct parts as [|z parts].
  - destruct Hin as [-> | []]. apply contains_self.
  - rewrite join_cons. destruct Hin as [-> | Hin].
    + apply contains_app_l, contains_self.
    + apply contains_app_r, contains_app_r, IH, Hin.
Qed.

(** ** [create_tag_filter] *)

Section TagFilter.
Import QueryBuilder Spec.

Variable key : string.

(** [drop_empty] keeps exactly the entries that are strings and not
    empty. *)
Lemma drop_empty_In (values : list (option string)) (v : string) :
  In v (drop_empty values) <-> In (Some v) values /\ v <> "".
Proof.
  induction values as [|[w|] values IH]; simpl.
  - tauto.
  - destruct (String.eqb_spec w "") as [-> | Hw]; simpl; rewrite IH.
    + split; [tauto|]. intros [[Heq | Hin] Hne]; [|tauto].
      injection Heq as <-. contradiction.
    + split.
      * intros [-> | [Hin Hne]]; [split; [now left | assumption] | tauto].
      * intros [[Heq | Hin] Hne]; [left; now injection Heq | tauto].
  - rewrite IH. split; [tauto|]. intros [[Heq | Hin] Hne]; [discriminate | tauto].
Qed.

Lemma create_tag_filter_presence (values : option (list (option string))) :
  drop_empty (or_empty values) = [] \/ drop_empty (or_empty values) = ["*"] ->
  create_tag_filter key values = presence_only key.
Proof.
  intros [H | H]; unfold create_tag_filter; rewrite H; reflexivity.
Qed.

Lemma create_tag_filter_equality (values : option (list (option string)))
    (v : string) :
  drop_empty (or_empty values) = [v] -> v <> "*" ->
  create_tag_filter key values = equality key v.
Proof.
  intros H Hv. unfold create_tag_filter. rewrite H. simpl.
  destruct (String.eqb_spec v "*") as [-> | _]; [contradiction | reflexivity].
Qed.

Lemma create_tag_filter_membership (values : option (list (option string))) :
  2 <= length (drop_empty (or_empty values)) ->
  create_tag_filter key values
  = membership key (drop_empty (or_empty values)).
Proof.
  intros H. unfold create_tag_filter.
  destruct (drop_empty (or_empty values)) as [|a [|b rest]];
    simpl in H; try lia.
  reflexivity.
Qed.

Lemma membership_contains (vs : list string) (v : string) :
  In v vs -> contains (membership key vs) ("'" ++ strip v ++ "'").
Proof.
  intros Hin. unfold membership.
  do 3 apply contains_app_r. apply contains_app_l.
  apply contains_join.
  apply (in_map (fun v => "'" ++ strip v ++ "'") _ _ Hin).
Qed.

Lemma membership_not_presence (vs : list string) :
  membership key vs <> presence_only key.
Proof. unfold membership, presence_only. simpl. discriminate. Qed.

(** C2. [create_tag_filter], with the empty and null entries of [values]
    dropped: a presence test on the key when nothing is left or the one
    entry left is the wildcard; an equality on the one entry left
    otherwise; a membership test listing every entry left when there are
    two or more. Key and values are written with their surrounding white
    space stripped. *)
Theorem create_tag_filter_policy (values : option (list (option string))) :
  let cleaned := drop_empty (or_empty values) in
  (cleaned = [] \/ cleaned = ["*"] ->
   create_tag_filter key values = "tags ? '" ++ strip key ++ "'")
  /\ (forall v, cleaned = [v] -> v <> "*" ->
      create_tag_filter key values
      = "tags->>'" ++ strip key ++ "' = '" ++ strip v ++ "'")
  /\ (2 <= length cleaned ->
      create_tag_filter key values
      = "tags->>'" ++ strip key ++ "' IN ("
        ++ join ", " (map (fun v => "'" ++ strip v ++ "'") cleaned) ++ ")"
      /\ forall v, In v cleaned ->
           contains (create_tag_filter key values) ("'" ++ strip v ++ "'")).
Proof.
  intros cleaned. split; [|split].
  - apply create_tag_filter_presence.
  - intros v. apply create_tag_filter_equality.
  - intros Hlen. rewrite (create_tag_filter_membership _ Hlen).
    split; [reflexivity|].
    intros v Hin. apply (membership_contains _ _ Hin).
Qed.

(** C8. No values, the wildcard alone, and the wildcard with an empty
    entry give the same presence test on the key. *)
Theorem presence_only_forms_agree :
  create_tag_filter key (Some []) = "tags ? '" ++ strip key ++ "'"
  /\ create_tag_filter key (Some [Some "*"]) = "tags ? '" ++ strip key ++ "'"
  /\ create_tag_filter key (Some [Some "*"; Some ""])
     = "tags ? '" ++ strip key ++ "'".
Proof. repeat split. Qed.

(** C10. Among two or more entries the wildcard is a literal: the filter
    is the membership test, its list holds ['*'], and it is not the
    presence test. *)
Theorem wildcard_among_many_is_literal
    (values : option (list (option string))) :
  let cleaned := drop_empty (or_empty values) in
  2 <= length cleaned -> In "*" cleaned ->
  create_tag_filter key values
  = "tags->>'" ++ strip key ++ "' IN ("
    ++ join ", " (map (fun v => "'" ++ strip v ++ "'") cleaned) ++ ")"
  /\ In "'*'" (map (fun v => "'" ++ strip v ++ "'") cleaned)
  /\ contains (create_tag_filter key values) "'*'"
  /\ create_tag_filter key values <> "tags ? '" ++ strip key ++ "'".
Proof.
  intros cleaned Hlen Hin.
  rewrite (create_tag_filter_membership _ Hlen). repeat split.
  - change "'*'" with ((fun v => "'" ++ strip v ++ "'") "*").
    apply in_map, Hin.
  - apply (membership_contains _ "*" Hin).
  - apply membership_not_presence.
Qed.

End TagFilter.

(** The three rows of the policy on the key [" amenity "]: no values; a null
    entry and one padded value; two values with an empty entry between. *)
Lemma create_tag_filter_policy_witness :
  QueryBuilder.create_tag_filter " amenity " None = "tags ? 'amenity'"
  /\ QueryBuilder.create_tag_filter " amenity " (Some [None; Some " cafe "])
     = "tags->>'amenity' = 'cafe'"
  /\ QueryBuilder.create_tag_filter " amenity "
       (Some [Some "a"; Some ""; Some "b"])
     = "tags->>'amenity' IN ('a', 'b')"
  /\ contains
       (QueryBuilder.create_tag_filter " amenity "
          (Some [Some "a"; Some ""; Some "b"])) "'b'".
Proof.
  destruct (create_tag_filter_policy " amenity " None) as (Hnone & _).
  destruct (create_tag_filter_policy " amenity " (Some [None; Some " cafe "]))
    as (_ & Hone & _).
  destruct (create_tag_filter_policy " amenity "
              (Some [Some "a"; Some ""; Some "b"]))
    as (_ & _ & Hmany).
  destruct Hmany as (Hin & Hall); [apply le_n|].
  split; [apply Hnone; now left|].
  split; [apply (Hone " cafe " eq_refl); discriminate|].
  split; [exact Hin|].
  apply (Hall "b"). right. now left.
Defined.

(** The wildcard next to another value. *)
Lemma wildcard_among_many_is_literal_witness :
  QueryBuilder.create_tag_filter "amenity" (Some [Some "*"; Some "a"])
  = "tags->>'amenity' IN ('*', 'a')"
  /\ QueryBuilder.create_tag_filter "amenity" (Some [Some "*"; Some "a"])
     <> "tags ? 'amenity'".
Proof.
  destruct (wildcard_among_many_is_literal "amenity"
              (Some [Some "*"; Some "a"]))
    as (Hin & _ & _ & Hne).
  - apply le_n.
  - now left.
  - split; [exact Hin | exact Hne].
Defined.

(** ** Characters and occurrences *)

Lemma all_chars_app (p : ascii -> bool) (a b : string) :
  all_chars p (a ++ b) = all_chars p a && all_chars p b.
Proof.
  induction a as [|c a IH]; simpl; [reflexivity|].
  now rewrite IH, andb_assoc.
Qed.

Lemma all_chars_repeat (p : ascii -> bool) (c : ascii) (n : nat) :
  p c = true -> all_chars p (PyStr.repeat c n) = true.
Proof. intros Hc. induction n as [|n IH]; simpl; [reflexivity | now rewrite Hc]. Qed.

Lemma all_chars_substring (p : ascii -> bool) (s : string) :
  all_chars p s = true -> forall n m, all_chars p (substring n m s) = true.
Proof.
  induction s as [|c s IH]; intros Hs n m.
  - destruct n, m; reflexivity.
  - simpl in Hs. apply andb_true_iff in Hs as [Hc Hs].
    destruct n as [|n]; simpl.
    + destruct m as [|m]; simpl; [reflexivity|].
      rewrite Hc. apply (IH Hs 0 m).
    + apply (IH Hs n m).
Qed.

Lemma has_char_app (c : ascii) (a b : string) :
  has_char c (a ++ b) = has_char c a || has_char c b.
Proof.
  induction a as [|x a IH]; simpl; [reflexivity|].
  now rewrite IH, orb_assoc.
Qed.

Lemma all_chars_has_char (p : ascii -> bool) (c : ascii) (s : string) :
  all_chars p s = true -> p c = false -> has_char c s = false.
Proof.
  intros Hs Hc. induction s as [|x s IH]; simpl in *; [reflexivity|].
  apply andb_true_iff in Hs as [Hx Hs]. rewrite (IH Hs), orb_false_r.
  destruct (Ascii.eqb_spec c x) as [-> | _]; [congruence | reflexivity].
Qed.

(** A word starts no earlier for what follows a character it lacks. *)
Lemma prefix_before_sep (c : ascii) (b : string) :
  forall w a, has_char c w = false ->
  String.prefix w (a ++ String c b) = String.prefix w a.
Proof.
  intros w a. revert w.
  induction a as [|y a IH]; intros [|x w] Hw; simpl in *; try reflexivity.
  - apply orb_false_iff in Hw as [Hx _].
    rewrite Ascii.eqb_sym in Hx. apply Ascii.eqb_neq in Hx.
    destruct (ascii_dec x c); [contradiction | reflexivity].
  - apply orb_false_iff in Hw as [_ Hw].
    destruct (ascii_dec x y); [apply IH, Hw | reflexivity].
Qed.

(** Occurrences of a word on the two sides of a character it lacks add up. *)
Lemma count_around_sep (c x : ascii) (w a b : string) :
  has_char c (String x w) = false ->
  count (a ++ String c b) (String x w)
  = count a (String x w) + count b (String x w).
Proof.
  intros Hw. induction a as [|y a IH].
  - cbn [append count Nat.add].
    replace (String.prefix (String x w) (String c b)) with false; [reflexivity|].
    simpl in Hw. apply orb_false_iff in Hw as [Hx _].
    rewrite Ascii.eqb_sym in Hx. apply Ascii.eqb_neq in Hx.
    simpl. destruct (ascii_dec x c); [contradiction | reflexivity].
  - change (String y a ++ String c b) with (String y (a ++ String c b)).
    cbn [count]. rewrite IH.
    change (String y (a ++ String c b)) with (String y a ++ String c b).
    rewrite (prefix_before_sep c b _ _ Hw). lia.
Qed.

Lemma count_without_first_char (x : ascii) (w s : string) :
  has_char x s = false -> count s (String x w) = 0.
Proof.
  induction s as [|y s IH]; intros Hs; [reflexivity|].
  simpl in Hs. apply orb_false_iff in Hs as [Hy Hs].
  cbn [count]. rewrite (IH Hs). apply Ascii.eqb_neq in Hy.
  simpl. destruct (ascii_dec x y); [contradiction | reflexivity].
Qed.

Lemma endswith_last_char (a : string) (c d : ascii) :
  endswith (a ++ String c "") (String d "") = Ascii.eqb c d.
Proof.
  induction a as [|x a IH].
  - simpl. destruct (Ascii.eqb c d); reflexivity.
  - change (String x a ++ String c "") with (String x (a ++ String c "")).
    cbn [endswith]. rewrite IH.
    replace (String x (a ++ String c "") =? String d "") with false;
      [reflexivity|].
    simpl. destruct (Ascii.eqb x d); [|reflexivity].
    destruct a; reflexivity.
Qed.

(** ** The characters of a float's [repr] *)

Section FloatChars.
Import PyFloat.

Lemma digit_char_ok (d : Z) : float_char (digit_char d) = true.
Proof.
  unfold digit_char.
  repeat match goal with
         | |- context [match ?x with _ => _ end] => destruct x
         end; reflexivity.
Qed.

Lemma digits_fuel_ok (fuel : nat) :
  forall z acc, all_chars float_char acc = true ->
  all_chars float_char (digits_fuel fuel z acc) = true.
Proof.
  induction fuel as [|fuel IH]; intros z acc Hacc; simpl; [assumption|].
  assert (Hstep : all_chars float_char (String (digit_char (z mod 10)) acc) = true)
    by (cbn [all_chars]; now rewrite digit_char_ok).
  destruct (z <? 10)%Z; [assumption | now apply IH].
Qed.

Lemma digits_ok (z : Z) : all_chars float_char (digits z) = true.
Proof. apply digits_fuel_ok. reflexivity. Qed.

Lemma significant_ok (s : string) :
  all_chars float_char s = true -> all_chars float_char (significant s) = true.
Proof.
  induction s as [|c s IH]; intros Hs; [reflexivity|].
  cbn [all_chars] in Hs. apply andb_true_iff in Hs as [Hc Hs].
  specialize (IH Hs). cbn [significant].
  destruct (significant s) as [|d r].
  - destruct (Ascii.eqb c "0"); [reflexivity|].
    cbn [all_chars]. now rewrite Hc.
  - cbn [all_chars] in *. now rewrite Hc.
Qed.

Lemma shortest_ok (m e : Z) :
  all_chars float_char (fst (shortest m e)) = true.
Proof.
  unfold shortest.
  destruct (shortest_from 17 m e _ 1) as [c k]. cbn [fst].
  apply significant_ok, digits_ok.
Qed.

Lemma exponent_str_ok (x : Z) : all_chars float_char (exponent_str x) = true.
Proof.
  unfold exponent_str. rewrite !all_chars_app, digits_ok.
  destruct (x <? 0)%Z, (Z.abs x <? 10)%Z; reflexivity.
Qed.

Lemma with_point_ok (ds : string) (decpt : Z) :
  all_chars float_char ds = true ->
  all_chars float_char (with_point ds decpt) = true.
Proof.
  intros Hds. unfold with_point.
  destruct (decpt <=? 0)%Z; [|destruct (decpt <? _)%Z];
    rewrite !all_chars_app, ?Hds, ?all_chars_repeat, ?all_chars_substring;
    auto.
Qed.

Lemma format_short_ok (ds : string) (decpt : Z) :
  all_chars float_char ds = true ->
  all_chars float_char (format_short ds decpt) = true.
Proof.
  intros Hds. unfold format_short.
  destruct (_ || _); [|now apply with_point_ok].
  rewrite !all_chars_app, exponent_str_ok, andb_true_r.
  destruct ds as [|d [|d' rest]]; cbn [all_chars] in *;
    [reflexivity | assumption |].
  apply andb_true_iff in Hds as [Hd Hrest]. rewrite Hd.
  rewrite all_chars_app. cbn [all_chars] in *. now rewrite Hrest.
Qed.

(** A [repr] is made of digits, the point, the sign and exponent marks,
    and the letters of [inf] and [nan]. *)
Lemma float_str_ok (x : float) : all_chars float_char (float_str x) = true.
Proof.
  unfold float_str. destruct (Prim2SF x) as [s | s | | s m e].
  - destruct s; reflexivity.
  - destruct s; reflexivity.
  - reflexivity.
  - pose proof (shortest_ok (Zpos m) e) as Hds.
    destruct (shortest (Zpos m) e) as [ds decpt]. cbn [fst] in Hds.
    rewrite all_chars_app, (format_short_ok _ _ Hds).
    destruct s; reflexivity.
Qed.

Lemma float_str_lacks (c : ascii) (x : float) :
  float_char c = false -> has_char c (float_str x) = false.
Proof. apply all_chars_has_char, float_str_ok. Qed.

End FloatChars.

(** [repr] on some floats, as the interpreter prints them: integral values
    get a [.0], the scientific form starts at 1e16 and at 1e-5, and the
    digits are the fewest that read back as the same float. *)
Example float_str_examples :
  map PyFloat.float_str
    [1; -1; 0; -0; 0.5; 180; 1e15; 1e16; 1e22; 0x1.999999999999ap-4;
     0x1p-1074; 0x1.fffffffffffffp+1023; 0x1p-13; 0x1p-14; 0x1p56;
     infinity; neg_infinity; nan]%float
  = ["1.0"; "-1.0"; "0.0"; "-0.0"; "0.5"; "180.0"; "1000000000000000.0";
     "1e+16"; "1e+22"; "0.1"; "5e-324"; "1.7976931348623157e+308";
     "0.0001220703125"; "6.103515625e-05"; "7.205759403792794e+16";
     "inf"; "-inf"; "nan"].
Proof. vm_compute. reflexivity. Qed.

(** The form body of a query: spaces become [+], the other characters
    outside letters, digits and [_.-~] are percent-escaped. *)
Example urlencode_data_example :
  Client.urlencode_data "SELECT osm_id FROM t WHERE tags->>'k' = 'v~1'"
  = "data=SELECT+osm_id+FROM+t+WHERE+tags-%3E%3E%27k%27+%3D+%27v~1%27".
Proof. reflexivity. Qed.

Example strip_examples :
  strip "  geom " = "geom" /\ strip "" = "" /\ strip " a b " = "a b"
  /\ split "," "1, 2,,3" = ["1"; " 2"; ""; "3"] /\ split "," "" = [""].
Proof. repeat split. Qed.

(** The projected columns skip blanks and the wildcard and alias each key
    in double quotes. *)
Example create_column_filter_example :
  QueryBuilder.create_column_filter [" name "; "*"; ""; "amenity"] true
  = "osm_id, tags, tags->>'name' as " ++ QueryBuilder.dquote ++ "name"
    ++ QueryBuilder.dquote ++ ", tags->>'amenity' as " ++ QueryBuilder.dquote
    ++ "amenity" ++ QueryBuilder.dquote ++ ", ST_Centroid(geom) as geom".
Proof. reflexivity. Qed.

(** ** [build_simple_query] *)

Section Builder.
Import QueryBuilder Spec.

Variable bbox : BBox.
Variable columns : option (list string).
Variable tag_values : option (list (option string)).
Variable use_centroid : bool.

(** The query without a tag filter, as the last line of the function
    composes it. *)
Lemma build_simple_query_plain (table : string) (tag_key : option string)
    (t : list event) :
  table <> "" -> truthy tag_key = false ->
  build_simple_query (Some table) bbox columns tag_key tag_values use_centroid t
  = (inr ("SELECT " ++ create_column_filter (or_empty columns) use_centroid
          ++ " FROM " ++ table ++ " WHERE " ++ create_bbox_filter bbox "geom"),
     (t ++ [Built ColumnList; Built BboxFilter])%list).
Proof.
  intros Htable Hkey.
  cbv [build_simple_query bind building emit ret].
  destruct (String.eqb_spec table "") as [| _]; [contradiction|].
  rewrite <- app_assoc.
  destruct tag_key as [k|]; [|reflexivity].
  simpl in Hkey. apply negb_false_iff in Hkey. rewrite Hkey. reflexivity.
Qed.

(** The query with a tag filter: the same, then [" AND "] and the filter. *)
Lemma build_simple_query_tagged (table key : string) (t : list event) :
  table <> "" -> key <> "" ->
  build_simple_query (Some table) bbox columns (Some key) tag_values
    use_centroid t
  = (inr (("SELECT " ++ create_column_filter (or_empty columns) use_centroid
           ++ " FROM " ++ table ++ " WHERE " ++ create_bbox_filter bbox "geom")
          ++ " AND " ++ create_tag_filter key (Some (or_empty tag_values))),
     (t ++ [Built ColumnList; Built BboxFilter; Built TagClause])%list).
Proof.
  intros Htable Hkey.
  cbv [build_simple_query bind building emit ret].
  destruct (String.eqb_spec table "") as [| _]; [contradiction|].
  destruct (String.eqb_spec key "") as [| _]; [contradiction|].
  rewrite <- !app_assoc. rewrite join_cons. cbn [join concat].
  rewrite !append_assoc. reflexivity.
Qed.

Lemma bbox_filter_lacks_W : has_char "W" (create_bbox_filter bbox "geom") = false.
Proof.
  unfold create_bbox_filter. destruct bbox as [[[min_lon min_lat] max_lon] max_lat].
  rewrite !has_char_app, !float_str_lacks by reflexivity. reflexivity.
Qed.

Lemma bbox_filter_last_char :
  exists body, create_bbox_filter bbox "geom" = body ++ ")".
Proof.
  unfold create_bbox_filter. destruct bbox as [[[min_lon min_lat] max_lon] max_lat].
  eexists. change "), 4326)" with ("), 4326" ++ ")").
  rewrite <- !append_assoc. reflexivity.
Qed.

Lemma count_where_in_query (select_sql table where_sql : string) :
  count ("SELECT " ++ select_sql ++ " FROM " ++ table ++ " WHERE " ++ where_sql)
    "WHERE"
  = count select_sql "WHERE" + count table "WHERE" + 1 + count where_sql "WHERE".
Proof.
  change ("SELECT " ++ select_sql ++ " FROM " ++ table ++ " WHERE " ++ where_sql)
    with ("SELECT" ++ String " " (select_sql ++ String " " ("FROM" ++ String " "
            (table ++ String " " ("WHERE" ++ String " " where_sql))))).
  rewrite !count_around_sep by reflexivity.
  change (count "SELECT" "WHERE") with 0.
  change (count "FROM" "WHERE") with 0.
  change (count "WHERE" "WHERE") with 1.
  lia.
Qed.

Lemma tag_filter_last_char (key : string)
    (values : option (list (option string))) :
  exists body c, create_tag_filter key values = body ++ String c ""
                 /\ Ascii.eqb c ";" = false.
Proof.
  unfold create_tag_filter.
  destruct (_ =? 0)%nat; [|destruct (_ =? 1)%nat].
  - exists ("tags ? '" ++ strip key), "'"%char.
    now rewrite append_assoc.
  - eexists _, "'"%char. split; [|reflexivity].
    rewrite <- !append_assoc. reflexivity.
  - eexists _, ")"%char. split; [|reflexivity].
    rewrite <- !append_assoc. reflexivity.
Qed.

End Builder.

Section BuilderClaims.
Import QueryBuilder Spec.

(** C1. The query for fast-food amenities among the points of the box
    (-1, -1, 1, 1), with no extra projected column, is the string the
    specification prints, whether [columns] is left out or empty. *)
Theorem build_query_fast_food_example :
  result (build_simple_query (Some "postpass_point") (-1.0, -1.0, 1.0, 1.0)%float
            None (Some "amenity") (Some [Some "fast_food"]) false)
  = inr "SELECT osm_id, tags, geom FROM postpass_point WHERE geom && ST_SetSRID(ST_MakeBox2D(ST_MakePoint(-1.0, -1.0),ST_MakePoint(1.0, 1.0)), 4326) AND tags->>'amenity' = 'fast_food'"
  /\ result (build_simple_query (Some "postpass_point") (-1.0, -1.0, 1.0, 1.0)%float
               (Some []) (Some "amenity") (Some [Some "fast_food"]) false)
     = inr "SELECT osm_id, tags, geom FROM postpass_point WHERE geom && ST_SetSRID(ST_MakeBox2D(ST_MakePoint(-1.0, -1.0),ST_MakePoint(1.0, 1.0)), 4326) AND tags->>'amenity' = 'fast_food'".
Proof. split; vm_compute; reflexivity. Qed.

(** C6. With a table name and no tag filter the query starts with SELECT,
    is the select list and the table followed by one WHERE whose predicate
    is the box filter, so that WHERE occurs once more than in the select
    list and the table name together (once, when they hold none), and does
    not end in a semicolon; two parts are built. With a tag filter the same
    text is followed by AND and the filter, still without a final
    semicolon, and a third part is built. *)
Theorem build_query_without_tag_filter
    (table : string) (bbox : BBox) (columns : option (list string))
    (tag_key : option string) (tag_values : option (list (option string)))
    (use_centroid : bool) :
  table <> "" ->
  tag_key = None \/ tag_key = Some "" ->
  let select_sql := create_column_filter (or_empty columns) use_centroid in
  let query key :=
    build_simple_query (Some table) bbox columns key tag_values use_centroid in
  exists sql,
    result (query tag_key) = inr sql
    /\ sql = "SELECT " ++ select_sql ++ " FROM " ++ table
             ++ " WHERE " ++ create_bbox_filter bbox "geom"
    /\ startswith sql "SELECT" = true
    /\ count (create_bbox_filter bbox "geom") "WHERE" = 0
    /\ count sql "WHERE" = count select_sql "WHERE" + count table "WHERE" + 1
    /\ (count select_sql "WHERE" = 0 -> count table "WHERE" = 0 ->
        count sql "WHERE" = 1)
    /\ endswith sql ";" = false
    /\ built_parts (calls (query tag_key)) = [ColumnList; BboxFilter]
    /\ forall key, key <> "" ->
         result (query (Some key))
         = inr (sql ++ " AND " ++ create_tag_filter key (Some (or_empty tag_values)))
         /\ endswith (sql ++ " AND "
                         ++ create_tag_filter key (Some (or_empty tag_values)))
              ";" = false
         /\ built_parts (calls (query (Some key)))
            = [ColumnList; BboxFilter; TagClause].
Proof.
  intros Htable Hkey. cbv beta zeta.
  assert (Hfalsy : truthy tag_key = false) by (destruct Hkey as [-> | ->]; reflexivity).
  pose proof (build_simple_query_plain bbox columns tag_values use_centroid
                table tag_key [] Htable Hfalsy) as Hrun.
  pose proof (count_without_first_char "W" "HERE" _ (bbox_filter_lacks_W bbox))
    as Hbox.
  pose proof (count_where_in_query
                (create_column_filter (or_empty columns) use_centroid) table
                (create_bbox_filter bbox "geom")) as Hcount.
  rewrite Hbox, Nat.add_0_r in Hcount.
  eexists. split; [unfold result; now rewrite Hrun|].
  split; [reflexivity|]. split; [reflexivity|]. split; [exact Hbox|].
  split; [exact Hcount|]. split; [intros H1 H2; rewrite Hcount; lia|].
  split.
  - destruct (bbox_filter_last_char bbox) as [body ->].
    rewrite <- !append_assoc. apply endswith_last_char.
  - split; [unfold calls; now rewrite Hrun|].
    intros key Hne.
    pose proof (build_simple_query_tagged bbox columns tag_values use_centroid
                  table key [] Htable Hne) as Htag.
    unfold result, calls. rewrite Htag.
    split; [reflexivity|]. split; [|reflexivity].
    destruct (tag_filter_last_char key (Some (or_empty tag_values)))
      as (body & c & -> & Hc).
    rewrite <- !append_assoc, endswith_last_char. exact Hc.
Qed.

(** The polygons of the box (-1, -1, 1, 1), no tag filter. *)
Lemma build_query_without_tag_filter_witness :
  exists sql,
    result (build_simple_query (Some "postpass_polygon") (-1.0, -1.0, 1.0, 1.0)%float
              None None None false) = inr sql
    /\ startswith sql "SELECT" = true
    /\ count sql "WHERE" = 1
    /\ endswith sql ";" = false.
Proof.
  destruct (build_query_without_tag_filter "postpass_polygon"
              (-1.0, -1.0, 1.0, 1.0)%float None None None false)
    as (sql & Hres & _ & Hstart & _ & _ & Hone & Hend & _).
  - discriminate.
  - now left.
  - exists sql. repeat split; try assumption. now apply Hone.
Defined.

(** C7. Without a table name, missing or empty, the builder raises the
    [ValueError] that the specification calls InvalidRequest, whatever the
    other arguments, and builds no part of the query. *)
Theorem build_query_requires_table
    (table : option string) (bbox : BBox) (columns : option (list string))
    (tag_key : option string) (tag_values : option (list (option string)))
    (use_centroid : bool) (t : list event) :
  table = None \/ table = Some "" ->
  let run :=
    build_simple_query table bbox columns tag_key tag_values use_centroid in
  run t = (inl (ValueError "table is required for Postpass query."), t)
  /\ fails_with (result run) InvalidRequest
  /\ built_parts (calls run) = [].
Proof.
  intros [-> | ->] run; (split; [reflexivity|]); split;
    solve [reflexivity | eexists; split; reflexivity].
Qed.

(** An empty table name with every other argument given. *)
Lemma build_query_requires_table_witness :
  result (build_simple_query (Some "") (-1.0, -1.0, 1.0, 1.0)%float (Some ["name"])
            (Some "amenity") (Some [Some "fast_food"]) true)
  = inl (ValueError "table is required for Postpass query.")
  /\ built_parts
       (calls (build_simple_query (Some "") (-1.0, -1.0, 1.0, 1.0)%float (Some ["name"])
                 (Some "amenity") (Some [Some "fast_food"]) true)) = [].
Proof.
  destruct (build_query_requires_table (Some "") (-1.0, -1.0, 1.0, 1.0)%float
              (Some ["name"]) (Some "amenity") (Some [Some "fast_food"]) true [])
    as (Hrun & _ & Hparts).
  - now right.
  - split; [unfold result; now rewrite Hrun | exact Hparts].
Defined.

End BuilderClaims.

(** ** [run_sql] and [extract_buildings] *)

Lemma blank_lstrip (s : string) : Spec.blank s -> lstrip s = "".
Proof.
  unfold Spec.blank. induction s as [|c s IH]; intros Hs; [reflexivity|].
  simpl in *. apply andb_true_iff in Hs as [Hc Hs]. rewrite Hc. now apply IH.
Qed.

Lemma blank_strip (s : string) : Spec.blank s -> strip s = "".
Proof. intros Hs. unfold strip. now rewrite (blank_lstrip s Hs). Qed.

Lemma run_sql_calls_app (t1 t2 : list event) :
  run_sql_calls (t1 ++ t2) = (run_sql_calls t1 ++ run_sql_calls t2)%list.
Proof. apply flat_map_app. Qed.

Lemma run_sql_calls_cons (sql : string) (t : list event) :
  run_sql_calls (RunSql sql :: t) = sql :: run_sql_calls t.
Proof. reflexivity. Qed.

(** Open [run_sql] down to the calls of the library. *)
Ltac unfold_run_sql :=
  cbv [Client.run_sql bind emit raise ret try_except Client.Request_init
       Client.urlopen_read Client.loads].

Section ClientFacts.
Import Client Spec.

Variable url_error : string -> option string.
Variable transport : Request -> Z -> string + list Byte.byte.
Variable json_loads : list Byte.byte -> string + json.
Variable self : PostpassClient.

Lemma run_sql_without_endpoint (sql : string) (t : list event) :
  endpoint self = "" ->
  run_sql url_error transport json_loads self sql t
  = (inl (PostpassClientError "PostPass endpoint is required."),
     (t ++ [RunSql sql])%list).
Proof.
  intros He. cbv [run_sql bind emit raise]. now rewrite He.
Qed.

Lemma run_sql_without_sql (sql : string) (t : list event) :
  endpoint self <> "" -> sql = "" \/ strip sql = "" ->
  run_sql url_error transport json_loads self sql t
  = (inl (PostpassClientError "SQL query is required."),
     (t ++ [RunSql sql])%list).
Proof.
  intros He Hsql. cbv [run_sql bind emit raise].
  destruct (String.eqb_spec (endpoint self) "") as [| _]; [contradiction|].
  replace ((sql =? "") || (strip sql =? "")) with true; [reflexivity|].
  symmetry. apply orb_true_iff.
  destruct Hsql as [-> | ->]; [left | right]; reflexivity.
Qed.

(** Past the two checks and the construction of the request, one HTTP call
    is made and its outcome decides the result. *)
Lemma run_sql_posts (sql : string) (t : list event) :
  endpoint self <> "" -> strip sql <> "" -> url_error (endpoint self) = None ->
  run_sql url_error transport json_loads self sql t
  = (match transport (mkRequest (Request_full_url (endpoint self))
                        (encode_ascii (urlencode_data sql)) "POST")
             (timeout self) with
     | inl msg => inl (PostpassClientError ("HTTP request failed: " ++ msg))
     | inr raw =>
         match json_loads raw with
         | inl _ => inl (PostpassClientError "PostPass response was not valid JSON.")
         | inr payload =>
             if is_dict payload then inr payload
             else inl (PostpassClientError
                         "PostPass response must be a GeoJSON object.")
         end
     end,
     (t ++ [RunSql sql;
            UrlOpen (mkRequest (Request_full_url (endpoint self))
                       (encode_ascii (urlencode_data sql)) "POST")
              (timeout self)])%list).
Proof.
  intros He Hsql Hurl.
  unfold_run_sql.
  destruct (String.eqb_spec (endpoint self) "") as [| _]; [contradiction|].
  destruct (String.eqb_spec sql "") as [-> | _];
    [exfalso; apply Hsql; reflexivity|].
  destruct (String.eqb_spec (strip sql) "") as [| _]; [contradiction|].
  cbn [orb]. rewrite Hurl, <- app_assoc. cbn [app].
  destruct (transport _ _) as [msg | raw]; [reflexivity|].
  destruct (json_loads raw) as [msg | payload]; [reflexivity|].
  destruct (is_dict payload); reflexivity.
Qed.

(** Whatever happens, [run_sql] records its own entry, at most one HTTP
    call after it, and nothing else. *)
Lemma run_sql_trace (sql : string) (t : list event) :
  exists posts,
    snd (run_sql url_error transport json_loads self sql t)
    = (t ++ RunSql sql :: posts)%list
    /\ run_sql_calls posts = []
    /\ (posts = []
        \/ posts = [UrlOpen (mkRequest (Request_full_url (endpoint self))
                               (encode_ascii (urlencode_data sql)) "POST")
                      (timeout self)]).
Proof.
  unfold_run_sql.
  destruct (endpoint self =? ""); [exists []; auto|].
  destruct ((sql =? "") || (strip sql =? "")); [exists []; auto|].
  destruct (url_error _); [exists []; auto|].
  exists [UrlOpen (mkRequest (Request_full_url (endpoint self))
                     (encode_ascii (urlencode_data sql)) "POST")
            (timeout self)].
  rewrite <- app_assoc. cbn [app].
  destruct (transport _ _) as [msg | raw]; [auto|].
  destruct (json_loads raw) as [msg | payload]; [auto|].
  destruct (is_dict payload); auto.
Qed.

(** An exception that leaves [run_sql] is a [PostpassClientError], or the
    [ValueError] of a URL that [Request] cannot parse. *)
Lemma run_sql_raises (sql : string) (t : list event) (e : exn) :
  fst (run_sql url_error transport json_loads self sql t) = inl e ->
  (exists msg, e = PostpassClientError msg)
  \/ (exists msg, url_error (endpoint self) = Some msg /\ e = ValueError msg).
Proof.
  unfold_run_sql.
  destruct (endpoint self =? ""); [intros [= <-]; eauto|].
  destruct ((sql =? "") || (strip sql =? "")); [intros [= <-]; eauto|].
  destruct (url_error _) as [msg|]; [intros [= <-]; eauto|].
  destruct (transport _ _) as [msg | raw]; [intros [= <-]; eauto|].
  destruct (json_loads raw) as [msg | payload]; [intros [= <-]; eauto|].
  destruct (is_dict payload); [discriminate | intros [= <-]; eauto].
Qed.

End ClientFacts.

Lemma lstrip_head (s : string) (c : ascii) (r : string) :
  lstrip s = String c r -> isspace c = false.
Proof.
  induction s as [|x s IH]; simpl; [discriminate|].
  destruct (isspace x) eqn:Hx; [exact IH|]. now intros [= <- _].
Qed.

Lemma rstrip_keeps_head (c : ascii) (r : string) :
  isspace c = false -> rstrip (String c r) <> "".
Proof.
  intros Hc. cbn [rstrip]. destruct (rstrip r); [rewrite Hc|]; discriminate.
Qed.

Lemma lstrip_empty_blank (s : string) : lstrip s = "" -> Spec.blank s.
Proof.
  unfold Spec.blank. induction s as [|x s IH]; simpl; [reflexivity|].
  destruct (isspace x); [exact IH | discriminate].
Qed.

(** A string strips to nothing exactly when it is blank. *)
Lemma strip_empty_iff_blank (s : string) : strip s = "" <-> Spec.blank s.
Proof.
  split; [|apply blank_strip].
  unfold strip. intros Hs. apply lstrip_empty_blank.
  destruct (lstrip s) as [|c r] eqn:Hl; [reflexivity|].
  exfalso. apply (rstrip_keeps_head c r (lstrip_head s c r Hl)), Hs.
Qed.


(** C3, on the path where the code departs from it. The client is given
    the endpoint [example.org/api], which has no scheme, and the query
    [SELECT 1]. [Request] raises its [ValueError] before [run_sql] enters
    its [try], and the exception leaves [run_sql] as it is: it is no
    [PostpassClientError], it has no kind of the taxonomy, and no HTTP call
    was made. The same failure raised by [urlopen], inside the [try], is
    re-raised as the client's own error with the text
    "HTTP request failed: ...". *)
Theorem run_sql_lets_request_error_out :
  let msg := "unknown url type: 'example.org/api'" in
  let run :=
    Client.run_sql Stub.url_checked (Stub.answering "{}") Stub.json_loads
      Stub.client_without_scheme "SELECT 1" in
  result run = inl (ValueError msg)
  /\ (forall text, result run <> inl (PostpassClientError text))
  /\ (forall kind, ~ Spec.fails_with (result run) kind)
  /\ http_calls (calls run) = []
  /\ result (Client.run_sql Stub.url_ok (Stub.failing msg) Stub.json_loads
               Stub.client_without_scheme "SELECT 1")
     = inl (PostpassClientError ("HTTP request failed: " ++ msg))
  /\ Spec.fails_with
       (result (Client.run_sql Stub.url_ok (Stub.failing msg) Stub.json_loads
                  Stub.client_without_scheme "SELECT 1"))
       Spec.TransportError.
Proof.
  cbv zeta.
  assert (Hrun : result (Client.run_sql Stub.url_checked (Stub.answering "{}")
                           Stub.json_loads Stub.client_without_scheme
                           "SELECT 1")
                 = inl (ValueError "unknown url type: 'example.org/api'"))
    by (vm_compute; reflexivity).
  rewrite Hrun.
  split; [reflexivity|].
  split; [intros text; discriminate|].
  split.
  { intros kind (e & He & Hkind). injection He as <-. discriminate Hkind. }
  split; [vm_compute; reflexivity|].
  split; [vm_compute; reflexivity|].
  eexists. split; [vm_compute; reflexivity | reflexivity].
Qed.

Section BuildingsQuery.
Import Client QueryBuilder.

Variable url_error : string -> option string.
Variable transport : Request -> Z -> string + list Byte.byte.
Variable json_loads : list Byte.byte -> string + json.
Variable self : PostpassClient.
Variable bbox : BBox.

Lemma buildings_query_run (t : list event) :
  build_simple_query (Some "postpass_pointpolygon") bbox (Some [])
    (Some "building") (Some [Some "yes"]) false t
  = (inr ("SELECT osm_id, tags, geom FROM postpass_pointpolygon WHERE "
          ++ create_bbox_filter bbox "geom"
          ++ " AND tags->>'building' = 'yes'"),
     (t ++ [Built ColumnList; Built BboxFilter; Built TagClause])%list).
Proof.
  rewrite (build_simple_query_tagged bbox (Some []) (Some [Some "yes"]) false
             "postpass_pointpolygon" "building" t) by discriminate.
  change (create_tag_filter "building" (Some (or_empty (Some [Some "yes"]))))
    with "tags->>'building' = 'yes'".
  change (create_column_filter (or_empty (Some [])) false)
    with "osm_id, tags, geom".
  rewrite !append_assoc. reflexivity.
Qed.

Lemma extract_buildings_run (t : list event) :
  extract_buildings url_error transport json_loads self bbox t
  = run_sql url_error transport json_loads self
      ("SELECT osm_id, tags, geom FROM postpass_pointpolygon WHERE "
          ++ create_bbox_filter bbox "geom"
          ++ " AND tags->>'building' = 'yes'")
      (t ++ [Built ColumnList; Built BboxFilter; Built TagClause])%list.
Proof. unfold extract_buildings, bind. now rewrite buildings_query_run. Qed.

Lemma extract_buildings_calls :
  run_sql_calls
    (calls (extract_buildings url_error transport json_loads self bbox))
  = ["SELECT osm_id, tags, geom FROM postpass_pointpolygon WHERE "
          ++ create_bbox_filter bbox "geom"
          ++ " AND tags->>'building' = 'yes'"].
Proof.
  unfold calls. rewrite extract_buildings_run.
  destruct (run_sql_trace url_error transport json_loads self
              ("SELECT osm_id, tags, geom FROM postpass_pointpolygon WHERE "
          ++ create_bbox_filter bbox "geom"
          ++ " AND tags->>'building' = 'yes'")
              ([] ++ [Built ColumnList; Built BboxFilter; Built TagClause]))
    as (posts & -> & Hposts & _).
  rewrite run_sql_calls_app, run_sql_calls_cons, Hposts. reflexivity.
Qed.

End BuildingsQuery.

Section ClientCalls.
Import Client Spec QueryBuilder.

Variable url_error : string -> option string.
Variable transport : Request -> Z -> string + list Byte.byte.
Variable json_loads : list Byte.byte -> string + json.
Variable self : PostpassClient.

(** C4. [run_sql] raises the client's error "PostPass endpoint is required."
    (ConfigurationError) when the endpoint is empty and, with an endpoint,
    "SQL query is required." (InvalidRequest) when the query is empty or
    blank; in both cases the transport is not called. *)
Theorem run_sql_checks_before_network (sql : string) :
  let run := run_sql url_error transport json_loads self sql in
  (endpoint self = "" ->
   result run = inl (PostpassClientError "PostPass endpoint is required.")
   /\ fails_with (result run) ConfigurationError
   /\ http_calls (calls run) = [])
  /\ (endpoint self <> "" -> sql = "" \/ blank sql ->
      result run = inl (PostpassClientError "SQL query is required.")
      /\ fails_with (result run) InvalidRequest
      /\ http_calls (calls run) = []).
Proof.
  cbv zeta. unfold result, calls. split.
  - intros He.
    rewrite (run_sql_without_endpoint url_error transport json_loads self sql []
               He).
    split; [reflexivity|]. split; [|reflexivity].
    eexists. split; reflexivity.
  - intros He Hsql.
    assert (Hstrip : sql = "" \/ strip sql = "")
      by (destruct Hsql as [-> | Hb]; [now left | right; now apply blank_strip]).
    rewrite (run_sql_without_sql url_error transport json_loads self sql []
               He Hstrip).
    split; [reflexivity|]. split; [|reflexivity].
    eexists. split; reflexivity.
Qed.

(** C5. [extract_buildings] is the specification's composition: the query
    for building = yes on the combined point and polygon view with no extra
    column, handed to [run_sql]. It enters [run_sql] once, with a query that
    names the view, the key and the quoted value. *)
Theorem extract_buildings_refines_spec (bbox : BBox) :
  let sql :=
    "SELECT osm_id, tags, geom FROM postpass_pointpolygon WHERE "
    ++ create_bbox_filter bbox "geom" ++ " AND tags->>'building' = 'yes'" in
  let run_sql := run_sql url_error transport json_loads self in
  let extract := extract_buildings url_error transport json_loads self bbox in
  (forall t, extract t = extract_buildings_spec run_sql bbox t)
  /\ result (build_query (buildings_request bbox)) = inr sql
  /\ (forall t,
        extract t
        = run_sql sql (t ++ [Built ColumnList; Built BboxFilter; Built TagClause])%list)
  /\ run_sql_calls (calls extract) = [sql]
  /\ contains sql "postpass_pointpolygon"
  /\ contains sql "building"
  /\ contains sql "'yes'".
Proof.
  cbv zeta.
  split; [reflexivity|].
  split.
  { unfold result.
    change (build_query (buildings_request bbox))
      with (build_simple_query (Some "postpass_pointpolygon") bbox (Some [])
              (Some "building") (Some [Some "yes"]) false).
    now rewrite buildings_query_run. }
  split; [apply extract_buildings_run|].
  split; [apply extract_buildings_calls|].
  - split; [|split].
    + exists "SELECT osm_id, tags, geom FROM ".
      eexists. reflexivity.
    + exists ("SELECT osm_id, tags, geom FROM postpass_pointpolygon WHERE "
              ++ create_bbox_filter bbox "geom" ++ " AND tags->>'"),
        "' = 'yes'".
      rewrite !append_assoc. reflexivity.
    + exists ("SELECT osm_id, tags, geom FROM postpass_pointpolygon WHERE "
              ++ create_bbox_filter bbox "geom" ++ " AND tags->>'building' = "),
        "".
      rewrite !append_assoc. reflexivity.
Qed.

End ClientCalls.

(** An empty endpoint, an empty query and a blank query, each with a
    transport that would answer. *)
Lemma run_sql_checks_before_network_witness :
  (result (Client.run_sql Stub.url_ok (Stub.answering "{}") Stub.json_loads
             (Client.mkPostpassClient "" 60) "SELECT 1")
   = inl (PostpassClientError "PostPass endpoint is required.")
   /\ http_calls
        (calls (Client.run_sql Stub.url_ok (Stub.answering "{}") Stub.json_loads
                  (Client.mkPostpassClient "" 60) "SELECT 1")) = [])
  /\ (result (Client.run_sql Stub.url_ok (Stub.answering "{}") Stub.json_loads
                Stub.client "")
      = inl (PostpassClientError "SQL query is required.")
      /\ http_calls
           (calls (Client.run_sql Stub.url_ok (Stub.answering "{}")
                     Stub.json_loads Stub.client "")) = [])
  /\ (result (Client.run_sql Stub.url_ok (Stub.answering "{}") Stub.json_loads
                Stub.client "   ")
      = inl (PostpassClientError "SQL query is required.")
      /\ http_calls
           (calls (Client.run_sql Stub.url_ok (Stub.answering "{}")
                     Stub.json_loads Stub.client "   ")) = []).
Proof.
  split; [|split].
  - destruct (run_sql_checks_before_network Stub.url_ok (Stub.answering "{}")
                Stub.json_loads (Client.mkPostpassClient "" 60) "SELECT 1")
      as (Hendpoint & _).
    destruct (Hendpoint eq_refl) as (Hres & _ & Hcalls). now split.
  - destruct (run_sql_checks_before_network Stub.url_ok (Stub.answering "{}")
                Stub.json_loads Stub.client "")
      as (_ & Hsql).
    destruct Hsql as (Hres & _ & Hcalls); [discriminate | now left | now split].
  - destruct (run_sql_checks_before_network Stub.url_ok (Stub.answering "{}")
                Stub.json_loads Stub.client "   ")
      as (_ & Hsql).
    destruct Hsql as (Hres & _ & Hcalls);
      [discriminate | right; reflexivity | now split].
Defined.

(** ** The bounding box: checked by the dialog, not by the builder *)

Section BboxOrdering.
Import Client Dialog QueryBuilder Spec.

Variable url_error : string -> option string.
Variable transport : Request -> Z -> string + list Byte.byte.
Variable json_loads : list Byte.byte -> string + json.
Variable float_of_str : string -> option float.

(** The builder accepts every box: with a table name the query is built
    around the box filter, whatever the order of the corners. *)
Lemma build_simple_query_any_bbox (table : string) (bbox : BBox)
    (columns : option (list string)) (tag_key : option string)
    (tag_values : option (list (option string))) (use_centroid : bool) :
  table <> "" ->
  exists sql,
    result (build_simple_query (Some table) bbox columns tag_key tag_values
              use_centroid) = inr sql
    /\ contains sql (create_bbox_filter bbox "geom").
Proof.
  intros Htable. unfold result.
  destruct (truthy tag_key) eqn:Hkey.
  - destruct tag_key as [key|]; [|discriminate].
    assert (Hne : key <> "")
      by (intros ->; discriminate).
    rewrite (build_simple_query_tagged bbox columns tag_values use_centroid
               table key [] Htable Hne).
    eexists. split; [reflexivity|].
    apply contains_app_l. do 5 apply contains_app_r. apply contains_self.
  - rewrite (build_simple_query_plain bbox columns tag_values use_centroid
               table tag_key [] Htable Hkey).
    eexists. split; [reflexivity|].
    do 5 apply contains_app_r. apply contains_self.
Qed.

(** [_parse_bbox] on four numbers out of order. *)
Lemma parse_bbox_misordered (form : Form) (p1 p2 p3 p4 : string)
    (min_lon min_lat max_lon max_lat : float) :
  map strip (split "," (strip (bboxEdit form))) = [p1; p2; p3; p4] ->
  float_of_str p1 = Some min_lon -> float_of_str p2 = Some min_lat ->
  float_of_str p3 = Some max_lon -> float_of_str p4 = Some max_lat ->
  (max_lon <=? min_lon)%float = true \/ (max_lat <=? min_lat)%float = true ->
  _parse_bbox float_of_str form
  = inl "Bounding box min values must be less than max values.".
Proof.
  intros Hparts H1 H2 H3 H4 Horder. unfold _parse_bbox.
  destruct (String.eqb_spec (strip (bboxEdit form)) "") as [Hempty | _].
  - rewrite Hempty in Hparts. discriminate Hparts.
  - rewrite Hparts, H1, H2, H3, H4.
    replace ((max_lon <=? min_lon)%float || (max_lat <=? min_lat)%float)
      with true; [reflexivity|].
    symmetry. apply orb_true_iff. exact Horder.
Qed.

(** C9, as the code has it. A box whose minimum is not below its maximum is
    turned down by the dialog: [_on_run_clicked] shows "Bounding box min
    values must be less than max values." and returns with nothing built and
    nothing sent. The builder and the client do not look at the order: for
    the same box the builder returns a query around the box filter, and
    [extract_buildings] hands its query to [run_sql]. *)
Theorem bbox_ordering_is_checked_by_dialog
    (form : Form) (p1 p2 p3 p4 : string)
    (min_lon min_lat max_lon max_lat : float) :
  map strip (split "," (strip (bboxEdit form))) = [p1; p2; p3; p4] ->
  float_of_str p1 = Some min_lon -> float_of_str p2 = Some min_lat ->
  float_of_str p3 = Some max_lon -> float_of_str p4 = Some max_lat ->
  (max_lon <=? min_lon)%float = true \/ (max_lat <=? min_lat)%float = true ->
  let bbox := (min_lon, min_lat, max_lon, max_lat) in
  (forall t,
     _on_run_clicked url_error transport json_loads float_of_str form t
     = (inr (ShowError "Bounding box min values must be less than max values."),
        t))
  /\ (forall table columns tag_key tag_values use_centroid,
        table <> "" ->
        exists sql,
          result (build_simple_query (Some table) bbox columns tag_key
                    tag_values use_centroid) = inr sql
          /\ contains sql (create_bbox_filter bbox "geom"))
  /\ (forall self,
        run_sql_calls
          (calls (extract_buildings url_error transport json_loads self bbox))
        = ["SELECT osm_id, tags, geom FROM postpass_pointpolygon WHERE "
           ++ create_bbox_filter bbox "geom"
           ++ " AND tags->>'building' = 'yes'"]).
Proof.
  intros Hparts H1 H2 H3 H4 Horder bbox. split; [|split].
  - intros t. unfold _on_run_clicked.
    now rewrite (parse_bbox_misordered form p1 p2 p3 p4 _ _ _ _
                   Hparts H1 H2 H3 H4 Horder).
  - intros table columns tag_key tag_values use_centroid.
    apply build_simple_query_any_bbox.
  - intros self. apply extract_buildings_calls.
Qed.

End BboxOrdering.

(** The box (1, 1, -1, -1) entered in the dialog. *)
Lemma bbox_ordering_is_checked_by_dialog_witness :
  Dialog._on_run_clicked Stub.url_ok (Stub.answering "{}") Stub.json_loads
    Stub.float_of_str
    (Dialog.mkForm Client.DEFAULT_POSTPASS_ENDPOINT "postpass_point"
       "1.0, 1.0, -1.0, -1.0" "amenity" "fast_food" "") []
  = (inr (Dialog.ShowError
            "Bounding box min values must be less than max values."), []).
Proof.
  apply (bbox_ordering_is_checked_by_dialog Stub.url_ok (Stub.answering "{}")
           Stub.json_loads Stub.float_of_str
           (Dialog.mkForm Client.DEFAULT_POSTPASS_ENDPOINT "postpass_point"
              "1.0, 1.0, -1.0, -1.0" "amenity" "fast_food" "")
           "1.0" "1.0" "-1.0" "-1.0" 1%float 1%float (-1)%float (-1)%float);
    try reflexivity.
  left. reflexivity.
Defined.

(** C9, as the specification has it, fails on the box (1, 1, -1, -1): its
    minimum is above its maximum on both axes, the builder returns a query
    for it and raises nothing, and [extract_buildings] posts that query. *)
Lemma misordered_bbox_is_built_and_sent :
  ((-1 <=? 1)%float = true)
  /\ result (QueryBuilder.build_simple_query (Some "postpass_point")
               (1.0, 1.0, -1.0, -1.0)%float None None None false)
     = inr "SELECT osm_id, tags, geom FROM postpass_point WHERE geom && ST_SetSRID(ST_MakeBox2D(ST_MakePoint(1.0, 1.0),ST_MakePoint(-1.0, -1.0)), 4326)"
  /\ ~ Spec.fails_with
         (result (QueryBuilder.build_simple_query (Some "postpass_point")
                    (1.0, 1.0, -1.0, -1.0)%float None None None false))
         Spec.InvalidRequest
  /\ result (Client.extract_buildings Stub.url_ok (Stub.answering "{}")
               Stub.json_loads Stub.client (1.0, 1.0, -1.0, -1.0)%float)
     = inr (JDict [])
  /\ length (http_calls
               (calls (Client.extract_buildings Stub.url_ok
                         (Stub.answering "{}") Stub.json_loads Stub.client
                         (1.0, 1.0, -1.0, -1.0)%float))) = 1.
Proof.
  split; [reflexivity|].
  split; [vm_compute; reflexivity|].
  split; [intros (e & He & _); vm_compute in He; discriminate He|].
  split; vm_compute; reflexivity.
Qed.

(** * Further properties of the code *)

(** ** More on strings *)

Lemma rstrip_idempotent (s : string) : rstrip (rstrip s) = rstrip s.
Proof.
  induction s as [|c s IH]; [reflexivity|].
  cbn [rstrip]. destruct (rstrip s) as [|d r] eqn:Hr.
  - destruct (isspace c) eqn:Hc; [reflexivity|].
    cbn [rstrip]. now rewrite Hc.
  - change (rstrip (String c (String d r)))
      with (match rstrip (String d r) with
            | EmptyString =>
                if isspace c then EmptyString else String c EmptyString
            | String d' r' => String c (String d' r')
            end).
    now rewrite IH.
Qed.

Lemma rstrip_head (c : ascii) (r : string) :
  isspace c = false -> exists r', rstrip (String c r) = String c r'.
Proof.
  intros Hc. cbn [rstrip]. destruct (rstrip r) as [|d r'].
  - rewrite Hc. now exists "".
  - now exists (String d r').
Qed.

Lemma lstrip_nonspace_head (c : ascii) (r : string) :
  isspace c = false -> lstrip (String c r) = String c r.
Proof. intros Hc. cbn [lstrip]. now rewrite Hc. Qed.

(** Stripping twice is stripping once. *)
Lemma strip_idempotent (s : string) : strip (strip s) = strip s.
Proof.
  unfold strip. destruct (lstrip s) as [|c r] eqn:Hl; [reflexivity|].
  pose proof (lstrip_head s c r Hl) as Hc.
  destruct (rstrip_head c r Hc) as [r' Hr].
  rewrite Hr, (lstrip_nonspace_head c r' Hc), <- Hr.
  apply rstrip_idempotent.
Qed.

Lemma endswith_self (s : string) : endswith s s = true.
Proof.
  destruct s as [|c s]; [reflexivity|].
  cbn [endswith]. now rewrite String.eqb_refl.
Qed.

Lemma endswith_app (a b : string) : endswith (a ++ b) b = true.
Proof.
  induction a as [|c a IH]; [apply endswith_self|].
  change (String c a ++ b) with (String c (a ++ b)).
  cbn [endswith]. rewrite IH. apply orb_true_r.
Qed.

Lemma startswith_app (a b : string) : startswith (a ++ b) a = true.
Proof.
  unfold startswith. induction a as [|c a IH]; [now destruct b|].
  simpl. destruct (ascii_dec c c); [exact IH | contradiction].
Qed.

Lemma join_snoc (sep x g : string) (parts : list string) :
  join sep ((x :: parts) ++ [g]) = join sep (x :: parts) ++ sep ++ g.
Proof.
  revert x. induction parts as [|y parts IH]; intros x; [reflexivity|].
  change ((x :: y :: parts) ++ [g])%list with (x :: ((y :: parts) ++ [g]))%list.
  change (((y :: parts) ++ [g]))%list with (y :: (parts ++ [g]))%list.
  rewrite !join_cons.
  change (y :: (parts ++ [g]))%list with ((y :: parts) ++ [g])%list.
  rewrite IH, !append_assoc. reflexivity.
Qed.

(** [split] yields one part more than there are separators. *)
Lemma split_length (sep : ascii) (s : string) :
  length (split sep s) = S (count s (String sep "")).
Proof.
  induction s as [|c s IH]; [reflexivity|].
  cbn [split count]. 
  replace (String.prefix (String sep "") (String c s)) with (Ascii.eqb c sep).
  - destruct (Ascii.eqb c sep).
    + cbn [length]. now rewrite IH.
    + destruct (split sep s) as [|p ps]; [discriminate IH|].
      cbn [length] in *. exact IH.
  - simpl. destruct (ascii_dec sep c) as [-> | Hne].
    + rewrite Ascii.eqb_refl. now destruct s.
    + apply Ascii.eqb_neq. congruence.
Qed.

(** ** The column list *)

Section ColumnList.
Import QueryBuilder.

Lemma column_projections_app (a b : list string) :
  column_projections (a ++ b)
  = (column_projections a ++ column_projections b)%list.
Proof.
  induction a as [|c a IH]; [reflexivity|].
  cbn [app column_projections]. rewrite IH.
  destruct ((strip c =? "") || (strip c =? "*")); reflexivity.
Qed.

Lemma column_projections_strip (columns : list string) :
  column_projections (map strip columns) = column_projections columns.
Proof.
  induction columns as [|c columns IH]; [reflexivity|].
  cbn [map column_projections]. now rewrite strip_idempotent, IH.
Qed.

Lemma column_projections_skip (c : string) :
  strip c = "" \/ strip c = "*" -> column_projections [c] = [].
Proof. intros [H | H]; cbn [column_projections]; now rewrite H. Qed.

(** The column list after its two fixed columns. *)
Lemma create_column_filter_shape (columns : list string) (use_centroid : bool) :
  create_column_filter columns use_centroid
  = "osm_id, tags, "
    ++ join ", " (column_projections columns
                  ++ [if use_centroid then "ST_Centroid(geom) as geom"
                      else "geom"]).
Proof.
  unfold create_column_filter.
  change (["osm_id"; "tags"] ++ column_projections columns)%list
    with ("osm_id" :: "tags" :: column_projections columns).
  set (g := if use_centroid then "ST_Centroid(geom) as geom" else "geom").
  change (("osm_id" :: "tags" :: column_projections columns) ++ [g])%list
    with ("osm_id" :: "tags" :: (column_projections columns ++ [g]))%list.
  destruct (column_projections columns ++ [g])%list as [|x rest] eqn:Hl.
  - destruct (column_projections columns); discriminate Hl.
  - rewrite !join_cons. reflexivity.
Qed.

(** X1. The column list always opens with [osm_id] and [tags] and always
    closes with the geometry column, the centroid when asked for, whatever
    the projected columns. *)
Theorem column_list_bookends (columns : list string) (use_centroid : bool) :
  startswith (create_column_filter columns use_centroid) "osm_id, tags, " = true
  /\ endswith (create_column_filter columns use_centroid)
       (if use_centroid then "ST_Centroid(geom) as geom" else "geom") = true
  /\ (columns = [] ->
      create_column_filter columns use_centroid
      = if use_centroid then "osm_id, tags, ST_Centroid(geom) as geom"
        else "osm_id, tags, geom").
Proof.
  split; [|split].
  - rewrite create_column_filter_shape. apply startswith_app.
  - rewrite create_column_filter_shape.
    set (g := if use_centroid then "ST_Centroid(geom) as geom" else "geom").
    destruct (column_projections columns) as [|x rest].
    + apply (endswith_app "osm_id, tags, " g).
    + rewrite join_snoc, <- !append_assoc. apply endswith_app.
  - intros ->. destruct use_centroid; reflexivity.
Qed.

(** X2. Only the stripped, non-empty, non-wildcard entries of [columns]
    count: padding an entry with white space changes nothing, and an entry
    that strips to nothing or to the wildcard can be left out anywhere. *)
Theorem column_list_ignores_padding_and_wildcards
    (use_centroid : bool) :
  (forall columns,
     create_column_filter (map strip columns) use_centroid
     = create_column_filter columns use_centroid)
  /\ (forall before c after,
        strip c = "" \/ strip c = "*" ->
        create_column_filter (before ++ c :: after) use_centroid
        = create_column_filter (before ++ after) use_centroid)
  /\ (forall columns,
        (forall c, In c columns -> strip c = "" \/ strip c = "*") ->
        create_column_filter columns use_centroid
        = create_column_filter [] use_centroid).
Proof.
  split; [|split].
  - intros columns.
    now rewrite !create_column_filter_shape, column_projections_strip.
  - intros before c after Hc.
    rewrite !create_column_filter_shape.
    change (c :: after) with ([c] ++ after)%list.
    now rewrite !column_projections_app, (column_projections_skip c Hc).
  - intros columns Hall. rewrite !create_column_filter_shape.
    replace (column_projections columns) with (@nil string); [reflexivity|].
    symmetry. induction columns as [|c columns IH]; [reflexivity|].
    change (c :: columns) with ([c] ++ columns)%list.
    rewrite column_projections_app, (column_projections_skip c).
    + apply IH. intros c' Hin. apply Hall. now right.
    + apply Hall. now left.
Qed.

End ColumnList.

(** ** The box filter and the query around it *)

Section QueryFacts.
Import QueryBuilder.

Lemma bbox_filter_has_char (c : ascii) (bbox : BBox) (geom_col : string) :
  PyFloat.float_char c = false ->
  has_char c " && ST_SetSRID(ST_MakeBox2D(ST_MakePoint(, ),), 4326)" = false ->
  has_char c (create_bbox_filter bbox geom_col) = has_char c geom_col.
Proof.
  intros Hfloat Hfixed. unfold create_bbox_filter.
  destruct bbox as [[[min_lon min_lat] max_lon] max_lat].
  rewrite !has_char_app, !float_str_lacks by exact Hfloat.
  cbn [has_char orb] in *.
  repeat match type of Hfixed with
         | (_ || _) = false => apply orb_false_iff in Hfixed as [? Hfixed]
         end.
  repeat match goal with
         | H : Ascii.eqb c _ = false |- _ => rewrite H; clear H
         end.
  cbn [orb]. now rewrite !orb_false_r.
Qed.

(** X3. The box filter brings in no quote, double quote, semicolon or
    backslash, whatever the four floats: such a character is in the filter
    only if it is in the name of the geometry column. *)
Theorem bbox_filter_adds_no_quote (bbox : BBox) (geom_col : string) :
  has_char "'" (create_bbox_filter bbox geom_col) = has_char "'" geom_col
  /\ has_char (ascii_of_nat 34) (create_bbox_filter bbox geom_col)
     = has_char (ascii_of_nat 34) geom_col
  /\ has_char ";" (create_bbox_filter bbox geom_col) = has_char ";" geom_col
  /\ has_char (ascii_of_nat 92) (create_bbox_filter bbox geom_col)
     = has_char (ascii_of_nat 92) geom_col
  /\ has_char "'" (create_bbox_filter bbox "geom") = false
  /\ has_char ";" (create_bbox_filter bbox "geom") = false.
Proof.
  repeat split;
    try (apply bbox_filter_has_char; reflexivity);
    rewrite bbox_filter_has_char; reflexivity.
Qed.

(** X4. The table name goes into the query as given: it is not stripped,
    and any non-empty name, white space alone included, gives a query. *)
Theorem table_name_is_used_verbatim (table : string) (bbox : BBox)
    (columns : option (list string)) (tag_key : option string)
    (tag_values : option (list (option string))) (use_centroid : bool) :
  table <> "" ->
  exists sql,
    result (build_simple_query (Some table) bbox columns tag_key tag_values
              use_centroid) = inr sql
    /\ contains sql (" FROM " ++ table ++ " WHERE geom && ").
Proof.
  intros Htable. unfold result.
  assert (Hbox : exists rest, create_bbox_filter bbox "geom" = "geom && " ++ rest).
  { unfold create_bbox_filter.
    destruct bbox as [[[min_lon min_lat] max_lon] max_lat].
    eexists. reflexivity. }
  destruct Hbox as [rest Hbox].
  destruct (truthy tag_key) eqn:Hkey.
  - destruct tag_key as [key|]; [|discriminate].
    assert (Hne : key <> "") by (intros ->; discriminate).
    rewrite (build_simple_query_tagged bbox columns tag_values use_centroid
               table key [] Htable Hne), Hbox.
    eexists. split; [reflexivity|].
    exists ("SELECT " ++ create_column_filter (or_empty columns) use_centroid).
    eexists. rewrite !append_assoc. reflexivity.
  - rewrite (build_simple_query_plain bbox columns tag_values use_centroid
               table tag_key [] Htable Hkey), Hbox.
    eexists. split; [reflexivity|].
    exists ("SELECT " ++ create_column_filter (or_empty columns) use_centroid).
    eexists. rewrite !append_assoc. reflexivity.
Qed.

(** A table name of three spaces. *)
Lemma table_name_is_used_verbatim_witness :
  result (build_simple_query (Some "   ") (-1.0, -1.0, 1.0, 1.0)%float None None
            None false)
  = inr "SELECT osm_id, tags, geom FROM     WHERE geom && ST_SetSRID(ST_MakeBox2D(ST_MakePoint(-1.0, -1.0),ST_MakePoint(1.0, 1.0)), 4326)"
  /\ exists sql,
       result (build_simple_query (Some "   ") (-1.0, -1.0, 1.0, 1.0)%float None
                 None None false) = inr sql
       /\ contains sql (" FROM " ++ "   " ++ " WHERE geom && ").
Proof.
  split; [vm_compute; reflexivity|].
  apply (table_name_is_used_verbatim "   "). discriminate.
Defined.

(** X5. Without a tag key the tag values are not looked at: the run is the
    same for any two of them, a failing run included. *)
Theorem tag_values_without_key_are_ignored
    (table : option string) (bbox : BBox) (columns : option (list string))
    (tag_key : option string) (use_centroid : bool)
    (values values' : option (list (option string))) (t : list event) :
  tag_key = None \/ tag_key = Some "" ->
  build_simple_query table bbox columns tag_key values use_centroid t
  = build_simple_query table bbox columns tag_key values' use_centroid t.
Proof.
  intros Hkey.
  assert (Hfalsy : truthy tag_key = false)
    by (destruct Hkey as [-> | ->]; reflexivity).
  destruct table as [table|]; [|reflexivity].
  destruct (String.eqb_spec table "") as [-> | Htable]; [reflexivity|].
  now rewrite !(build_simple_query_plain bbox columns _ use_centroid table
                  tag_key t Htable Hfalsy).
Qed.

(** The same query with and without values, the key left out. *)
Lemma tag_values_without_key_are_ignored_witness :
  build_simple_query (Some "postpass_point") (-1.0, -1.0, 1.0, 1.0)%float None
    None (Some [Some "fast_food"]) false []
  = build_simple_query (Some "postpass_point") (-1.0, -1.0, 1.0, 1.0)%float None
      None None false [].
Proof.
  apply tag_values_without_key_are_ignored. now left.
Defined.

End QueryFacts.

(** ** More on the tag filter *)

Section TagFilterFacts.
Import QueryBuilder.

Lemma drop_empty_app (a b : list (option string)) :
  drop_empty (a ++ b) = (drop_empty a ++ drop_empty b)%list.
Proof.
  induction a as [|[v|] a IH]; cbn [app drop_empty]; [reflexivity | | exact IH].
  rewrite IH. destruct (v =? ""); reflexivity.
Qed.

(** X6. The emptiness and wildcard tests are made on the value as given,
    before it is stripped: one value of white space alone is compared with
    the empty string, and one padded wildcard is compared with the literal
    star, where an empty value or a bare star would only test for the key. *)
Theorem tag_value_is_tested_before_stripping (key v : string) :
  v <> "" -> v <> "*" -> strip v = "" \/ strip v = "*" ->
  create_tag_filter key (Some [Some v])
  = "tags->>'" ++ strip key ++ "' = '" ++ strip v ++ "'"
  /\ create_tag_filter key (Some [Some v])
     <> create_tag_filter key (Some [Some (strip v)])
  /\ create_tag_filter key (Some [Some (strip v)]) = "tags ? '" ++ strip key ++ "'".
Proof.
  intros Hempty Hstar Hstrip.
  assert (Hone : drop_empty (or_empty (Some [Some v])) = [v]).
  { cbn [or_empty drop_empty].
    destruct (String.eqb_spec v "") as [| _]; [contradiction | reflexivity]. }
  assert (Hpresence :
            create_tag_filter key (Some [Some (strip v)])
            = "tags ? '" ++ strip key ++ "'")
    by (destruct Hstrip as [-> | ->]; reflexivity).
  rewrite (create_tag_filter_equality key _ v Hone Hstar), Hpresence.
  split; [reflexivity|]. split; [|reflexivity].
  unfold Spec.equality. simpl. discriminate.
Qed.

(** One blank and a star between two blanks. *)
Lemma tag_value_is_tested_before_stripping_witness :
  create_tag_filter "amenity" (Some [Some " "]) = "tags->>'amenity' = ''"
  /\ create_tag_filter "amenity" (Some [Some " * "]) = "tags->>'amenity' = '*'".
Proof.
  split.
  - apply (tag_value_is_tested_before_stripping "amenity" " ");
      [discriminate | discriminate | now left].
  - apply (tag_value_is_tested_before_stripping "amenity" " * ");
      [discriminate | discriminate | now right].
Defined.

(** X7. What the tag filter does not depend on: white space around the
    key; null and empty entries, wherever they stand among the values; and
    whether no values are given as [None] or as the empty list. *)
Theorem tag_filter_invariances (key : string) :
  (forall values, create_tag_filter (strip key) values
                  = create_tag_filter key values)
  /\ (forall before after,
        create_tag_filter key (Some (before ++ None :: after)%list)
        = create_tag_filter key (Some (before ++ after)%list)
        /\ create_tag_filter key (Some (before ++ Some "" :: after)%list)
           = create_tag_filter key (Some (before ++ after)%list))
  /\ create_tag_filter key None = create_tag_filter key (Some []).
Proof.
  split; [|split; [|reflexivity]].
  - intros values. unfold create_tag_filter. now rewrite strip_idempotent.
  - intros before after. unfold create_tag_filter. cbn [or_empty].
    change (None :: after) with ([None] ++ after)%list.
    change (Some "" :: after) with ([Some ""] ++ after)%list.
    rewrite !drop_empty_app. split; reflexivity.
Qed.

End TagFilterFacts.

(** ** The HTTP call *)

Section HttpCall.
Import Client.

Variable url_error : string -> option string.
Variable transport : Request -> Z -> string + list Byte.byte.
Variable json_loads : list Byte.byte -> string + json.
Variable self : PostpassClient.

Lemma http_calls_snoc (t posts : list event) (sql : string) :
  http_calls (t ++ RunSql sql :: posts) = (http_calls t ++ http_calls posts)%list.
Proof. unfold http_calls. now rewrite flat_map_app. Qed.

(** X8. [run_sql] never retries: whatever the endpoint, the query and the
    reply, it makes no HTTP call or exactly one, and that one is a POST, with
    the client's timeout, of the form body [data=<quoted query>], to the URL
    the [Request] holds: the endpoint as urllib reads it, without the white
    space, the angle brackets and the [URL:] around it, and without an empty
    fragment. Past the checks it is exactly one call, also when the
    transport or the parse fails. The default endpoint is posted to as it is
    written. *)
Theorem run_sql_posts_at_most_once (sql : string) :
  let posted := http_calls (calls (run_sql url_error transport json_loads self sql)) in
  let request :=
    mkRequest (Request_full_url (endpoint self))
      (list_byte_of_string ("data=" ++ quote_plus sql)) "POST" in
  (posted = [] \/ posted = [(request, timeout self)])
  /\ (endpoint self <> "" -> strip sql <> "" ->
      url_error (endpoint self) = None ->
      posted = [(request, timeout self)])
  /\ Request_full_url DEFAULT_POSTPASS_ENDPOINT = DEFAULT_POSTPASS_ENDPOINT
  /\ Request_full_url " <URL:https://example.org/api#> "
     = "https://example.org/api".
Proof.
  cbv zeta. unfold calls. split; [|split; [|split; reflexivity]].
  - destruct (run_sql_trace url_error transport json_loads self sql [])
      as (posts & -> & _ & [-> | ->]); [left | right]; reflexivity.
  - intros He Hsql Hurl.
    now rewrite (run_sql_posts url_error transport json_loads self sql []
                   He Hsql Hurl).
Qed.

(** X9. The request object is made outside the [try]: when [Request]
    turns the endpoint down, its [ValueError] leaves [run_sql] as it is, not
    as the client's own error, and no HTTP call is made. *)
Theorem run_sql_unparsable_endpoint (sql msg : string) :
  endpoint self <> "" -> strip sql <> "" ->
  url_error (endpoint self) = Some msg ->
  result (run_sql url_error transport json_loads self sql) = inl (ValueError msg)
  /\ http_calls (calls (run_sql url_error transport json_loads self sql)) = []
  /\ Spec.error_kind (ValueError msg) <> Some Spec.TransportError.
Proof.
  intros He Hsql Hurl. unfold result, calls. unfold_run_sql.
  destruct (String.eqb_spec (endpoint self) "") as [| _]; [contradiction|].
  destruct (String.eqb_spec sql "") as [-> | _];
    [exfalso; apply Hsql; reflexivity|].
  destruct (String.eqb_spec (strip sql) "") as [| _]; [contradiction|].
  cbn [orb]. rewrite Hurl. cbn [fst snd].
  split; [reflexivity|]. split; [reflexivity|].
  cbn [Spec.error_kind]. destruct (_ =? _); discriminate.
Qed.

End HttpCall.

(** An endpoint without a scheme, for a [Request] that asks for one. *)
Lemma run_sql_unparsable_endpoint_witness :
  result (Client.run_sql
            (fun url => if String.prefix "http" url then None
                        else Some "unknown url type")
            (Stub.answering "{}") Stub.json_loads
            (Client.mkPostpassClient "example.org/api" 60) "SELECT 1")
  = inl (ValueError "unknown url type").
Proof.
  apply (run_sql_unparsable_endpoint
           (fun url => if String.prefix "http" url then None
                       else Some "unknown url type")
           (Stub.answering "{}") Stub.json_loads
           (Client.mkPostpassClient "example.org/api" 60) "SELECT 1"
           "unknown url type");
    [discriminate | discriminate | reflexivity].
Defined.

Section Outcomes.
Import Client Spec.

Variable url_error : string -> option string.
Variable transport : Request -> Z -> string + list Byte.byte.
Variable json_loads : list Byte.byte -> string + json.
Variable self : PostpassClient.


End Outcomes.


(** ** The form body *)

Section FormBody.
Import Client Form.

Lemma hex_digit_safe (n : nat) : always_safe (nat_of_ascii (hex_digit n)) = true.
Proof. do 16 (destruct n as [|n]; [reflexivity|]). reflexivity. Qed.

Lemma percent_form (byte : nat) : all_chars form_char (percent byte) = true.
Proof.
  unfold percent. cbn [all_chars]. unfold form_char at 2 3.
  now rewrite !hex_digit_safe.
Qed.

Lemma quote_plus_form (s : string) : all_chars form_char (quote_plus s) = true.
Proof.
  induction s as [|c s IH]; [reflexivity|].
  cbn [quote_plus]. rewrite all_chars_app, IH, andb_true_r.
  destruct (always_safe (nat_of_ascii c)) eqn:Hsafe.
  - cbn [all_chars]. unfold form_char. now rewrite Hsafe.
  - destruct (_ =? 32)%nat; [reflexivity|].
    destruct (_ <? 128)%nat; [apply percent_form|].
    now rewrite all_chars_app, !percent_form.
Qed.

Lemma form_char_ascii (c : ascii) : form_char c = true -> is_ascii c = true.
Proof.
  destruct c as [[|] [|] [|] [|] [|] [|] [|] [|]];
    vm_compute; intros H; first [reflexivity | discriminate H].
Qed.

Lemma all_chars_impl (p q : ascii -> bool) (s : string) :
  (forall c, p c = true -> q c = true) ->
  all_chars p s = true -> all_chars q s = true.
Proof.
  intros Hpq. induction s as [|c s IH]; [reflexivity|].
  cbn [all_chars]. intros H. apply andb_true_iff in H as [Hc Hs].
  now rewrite (Hpq c Hc), (IH Hs).
Qed.

(** X10. The form body is plain ASCII and holds one field: the quoted
    query is made of letters, digits, [_.-~], [+] and [%] only, so the body
    has no [&], no space, no quote, and no [=] but the one after [data]. *)
Theorem form_body_is_one_ascii_field (sql : string) :
  all_chars form_char (quote_plus sql) = true
  /\ all_chars is_ascii (urlencode_data sql) = true
  /\ has_char "&" (urlencode_data sql) = false
  /\ has_char " " (urlencode_data sql) = false
  /\ has_char "'" (urlencode_data sql) = false
  /\ has_char "=" (quote_plus sql) = false.
Proof.
  pose proof (quote_plus_form sql) as Hform.
  split; [exact Hform|]. split.
  - unfold urlencode_data. rewrite all_chars_app.
    now rewrite (all_chars_impl _ _ _ form_char_ascii Hform).
  - unfold urlencode_data. rewrite !has_char_app.
    rewrite !(all_chars_has_char form_char _ _ Hform) by reflexivity.
    repeat split.
Qed.

(** Reading back one quoted character. *)
Lemma unquote_plus_char (c : ascii) (rest : string) :
  unquote_plus (quote_plus (String c "") ++ rest) = String c (unquote_plus rest).
Proof.
  destruct c as [[|] [|] [|] [|] [|] [|] [|] [|]]; reflexivity.
Qed.

Lemma quote_plus_cons (c : ascii) (s : string) :
  quote_plus (String c s) = quote_plus (String c "") ++ quote_plus s.
Proof. cbn [quote_plus]. now rewrite append_nil_r. Qed.

(** X11. Quoting loses nothing: reading the quoted query back gives the
    query, so two queries with the same form body are the same query. *)
Theorem form_body_determines_query :
  (forall sql, unquote_plus (quote_plus sql) = sql)
  /\ (forall sql sql', urlencode_data sql = urlencode_data sql' -> sql = sql').
Proof.
  assert (Hback : forall sql, unquote_plus (quote_plus sql) = sql).
  { induction sql as [|c sql IH]; [reflexivity|].
    now rewrite quote_plus_cons, unquote_plus_char, IH. }
  split; [exact Hback|].
  intros sql sql' Heq. unfold urlencode_data in Heq.
  injection Heq as Heq.
  now rewrite <- (Hback sql), <- (Hback sql'), Heq.
Qed.

End FormBody.

(** ** Comparisons with a NaN *)

Lemma leb_nan_r (x y : float) : is_nan y = true -> (x <=? y)%float = false.
Proof.
  intros Hy. rewrite leb_spec.
  assert (Prim2SF y = S754_nan) as -> by (unfold Prim2SF; now rewrite Hy).
  unfold SFleb, SFcompare. destruct (Prim2SF x); reflexivity.
Qed.

Lemma leb_nan_l (x y : float) : is_nan x = true -> (x <=? y)%float = false.
Proof.
  intros Hx. rewrite leb_spec.
  assert (Prim2SF x = S754_nan) as -> by (unfold Prim2SF; now rewrite Hx).
  reflexivity.
Qed.

(** ** The bounding box field *)

Section BboxField.
Import Dialog.

Variable float_of_str : string -> option float.

(** Four numbers in order make a box. *)
Lemma parse_bbox_returns (form : Form) (p1 p2 p3 p4 : string)
    (min_lon min_lat max_lon max_lat : float) :
  map strip (split "," (strip (bboxEdit form))) = [p1; p2; p3; p4] ->
  float_of_str p1 = Some min_lon -> float_of_str p2 = Some min_lat ->
  float_of_str p3 = Some max_lon -> float_of_str p4 = Some max_lat ->
  (max_lon <=? min_lon)%float = false -> (max_lat <=? min_lat)%float = false ->
  _parse_bbox float_of_str form = inr (min_lon, min_lat, max_lon, max_lat).
Proof.
  intros Hparts H1 H2 H3 H4 Hlon Hlat. unfold _parse_bbox.
  destruct (String.eqb_spec (strip (bboxEdit form)) "") as [Hempty | _].
  - rewrite Hempty in Hparts. discriminate Hparts.
  - now rewrite Hparts, H1, H2, H3, H4, Hlon, Hlat.
Qed.

(** X12. [_parse_bbox] returns a box exactly when the stripped text has
    four comma-separated parts that all read as numbers, and neither
    maximum is at or below its minimum; the box holds the four numbers in
    the order typed. *)
Theorem parse_bbox_accepts (form : Form)
    (min_lon min_lat max_lon max_lat : float) :
  _parse_bbox float_of_str form = inr (min_lon, min_lat, max_lon, max_lat)
  <-> exists p1 p2 p3 p4,
        map strip (split "," (strip (bboxEdit form))) = [p1; p2; p3; p4]
        /\ float_of_str p1 = Some min_lon /\ float_of_str p2 = Some min_lat
        /\ float_of_str p3 = Some max_lon /\ float_of_str p4 = Some max_lat
        /\ (max_lon <=? min_lon)%float = false
        /\ (max_lat <=? min_lat)%float = false.
Proof.
  split.
  - unfold _parse_bbox.
    destruct (strip (bboxEdit form) =? ""); [discriminate|].
    destruct (map strip (split "," (strip (bboxEdit form))))
      as [|p1 [|p2 [|p3 [|p4 [|p5 rest]]]]]; try discriminate.
    destruct (float_of_str p1) as [a|] eqn:H1; [|discriminate].
    destruct (float_of_str p2) as [b|] eqn:H2; [|discriminate].
    destruct (float_of_str p3) as [c|] eqn:H3; [|discriminate].
    destruct (float_of_str p4) as [d|] eqn:H4; [|discriminate].
    destruct (_ || _) eqn:Horder; [discriminate|].
    intros [= <- <- <- <-]. apply orb_false_iff in Horder as [Hlon Hlat].
    exists p1, p2, p3, p4. repeat split; assumption.
  - intros (p1 & p2 & p3 & p4 & Hparts & H1 & H2 & H3 & H4 & Hlon & Hlat).
    now apply (parse_bbox_returns form p1 p2 p3 p4).
Qed.

(** X13. What [_parse_bbox] turns down, in the order it checks: a blank
    field; a text that does not hold exactly three commas; four parts of
    which one does not read as a number. *)
Theorem parse_bbox_rejects (form : Form) :
  (Spec.blank (bboxEdit form) ->
   _parse_bbox float_of_str form
   = inl "Please enter a bounding box in the form min_lon,min_lat,max_lon,max_lat.")
  /\ (~ Spec.blank (bboxEdit form) ->
      count (strip (bboxEdit form)) "," <> 3 ->
      _parse_bbox float_of_str form
      = inl "Bounding box must have exactly four comma-separated values.")
  /\ (forall p1 p2 p3 p4,
        map strip (split "," (strip (bboxEdit form))) = [p1; p2; p3; p4] ->
        float_of_str p1 = None \/ float_of_str p2 = None
        \/ float_of_str p3 = None \/ float_of_str p4 = None ->
        _parse_bbox float_of_str form
        = inl "Bounding box values must be numeric.").
Proof.
  unfold _parse_bbox. split; [|split].
  - intros Hblank. now rewrite (blank_strip _ Hblank).
  - intros Hblank Hcommas.
    destruct (String.eqb_spec (strip (bboxEdit form)) "") as [Hempty | _].
    { exfalso. apply Hblank, strip_empty_iff_blank, Hempty. }
    pose proof (split_length "," (strip (bboxEdit form))) as Hlen.
    rewrite <- (length_map strip) in Hlen.
    destruct (map strip (split "," (strip (bboxEdit form))))
      as [|p1 [|p2 [|p3 [|p4 [|p5 rest]]]]]; try reflexivity.
    cbn [length] in Hlen. exfalso. apply Hcommas. congruence.
  - intros p1 p2 p3 p4 Hparts Hnone.
    destruct (String.eqb_spec (strip (bboxEdit form)) "") as [Hempty | _].
    { rewrite Hempty in Hparts. discriminate Hparts. }
    rewrite Hparts.
    destruct Hnone as [H | [H | [H | H]]]; rewrite H;
      repeat match goal with
             | |- context [match float_of_str ?p with _ => _ end] =>
                 destruct (float_of_str p)
             end; reflexivity.
Qed.

(** X14. A NaN passes the ordering check: when each axis has a NaN among
    its two numbers, the box is accepted as typed. *)
Theorem parse_bbox_accepts_nan (form : Form) (p1 p2 p3 p4 : string)
    (min_lon min_lat max_lon max_lat : float) :
  map strip (split "," (strip (bboxEdit form))) = [p1; p2; p3; p4] ->
  float_of_str p1 = Some min_lon -> float_of_str p2 = Some min_lat ->
  float_of_str p3 = Some max_lon -> float_of_str p4 = Some max_lat ->
  is_nan min_lon = true \/ is_nan max_lon = true ->
  is_nan min_lat = true \/ is_nan max_lat = true ->
  _parse_bbox float_of_str form = inr (min_lon, min_lat, max_lon, max_lat).
Proof.
  intros Hparts H1 H2 H3 H4 Hlon Hlat.
  apply (parse_bbox_returns form p1 p2 p3 p4); try assumption.
  - destruct Hlon as [H | H]; [apply leb_nan_r | apply leb_nan_l]; exact H.
  - destruct Hlat as [H | H]; [apply leb_nan_r | apply leb_nan_l]; exact H.
Qed.

End BboxField.

(** A NaN on each axis, typed as [nan]. *)
Lemma parse_bbox_accepts_nan_witness :
  Dialog._parse_bbox StubNaN.float_of_str
    (Dialog.mkForm Client.DEFAULT_POSTPASS_ENDPOINT "postpass_point"
       "nan, 1.0, -1.0, nan" "" "" "")
  = inr (nan, 1, -1, nan)%float.
Proof.
  apply (parse_bbox_accepts_nan StubNaN.float_of_str
           (Dialog.mkForm Client.DEFAULT_POSTPASS_ENDPOINT "postpass_point"
              "nan, 1.0, -1.0, nan" "" "" "")
           "nan" "1.0" "-1.0" "nan");
    try reflexivity.
  - now left.
  - now right.
Defined.

(** ** The click handler *)

Section ClickHandler.
Import Client Dialog QueryBuilder.

Variable url_error : string -> option string.
Variable transport : Request -> Z -> string + list Byte.byte.
Variable json_loads : list Byte.byte -> string + json.
Variable float_of_str : string -> option float.

(** What leaves [run_sql] is caught by the dialog. *)
Lemma run_sql_error_is_caught (self : PostpassClient) (sql : string)
    (t : list event) (e : exn) :
  fst (run_sql url_error transport json_loads self sql t) = inl e ->
  caught e = true.
Proof.
  intros He.
  destruct (run_sql_raises url_error transport json_loads self sql t e He)
    as [[msg ->] | (msg & _ & ->)]; reflexivity.
Qed.

(** A run of [run_sql] from the dialog's side: a value or a caught error,
    one entry into [run_sql], at most one HTTP call. *)
Lemma run_sql_from_dialog (self : PostpassClient) (sql : string)
    (t : list event) :
  exists r new,
    run_sql url_error transport json_loads self sql t = (r, (t ++ new)%list)
    /\ (forall e, r = inl e -> caught e = true)
    /\ run_sql_calls new = [sql]
    /\ length (http_calls new) <= 1.
Proof.
  destruct (run_sql url_error transport json_loads self sql t) as [r t'] eqn:Hrun.
  destruct (run_sql_trace url_error transport json_loads self sql t)
    as (posts & Htrace & Hposts & Hcases).
  rewrite Hrun in Htrace. cbn [snd] in Htrace. subst t'.
  exists r, (RunSql sql :: posts). split; [reflexivity|]. split; [|split].
  - intros e ->.
    apply (run_sql_error_is_caught self sql t). now rewrite Hrun.
  - now rewrite run_sql_calls_cons, Hposts.
  - destruct Hcases as [-> | ->]; cbn; lia.
Qed.

(** The whole of a click: it ends with an outcome, never an exception; it
    adds to the trace at most one entry into [run_sql] and one HTTP call,
    and nothing when the form is turned down; a fetched document comes with
    a tag key, from the buildings default or from the form. *)
Lemma on_run_clicked_run (form : Form) (t : list event) :
  exists o new,
    _on_run_clicked url_error transport json_loads float_of_str form t
    = (inr o, (t ++ new)%list)
    /\ length (run_sql_calls new) <= 1
    /\ length (http_calls new) <= 1
    /\ ((exists msg, _parse_bbox float_of_str form = inl msg)
        \/ strip (endpointEdit form) = "" -> new = [])
    /\ (forall g table key value,
          o = Fetched g table key value ->
          (strip (tagKeyEdit form) = ""
           /\ table = "postpass_pointpolygon"
           /\ key = Some "building" /\ value = Some "yes")
          \/ (strip (tagKeyEdit form) <> ""
              /\ table = geomCombo form
              /\ key = Some (strip (tagKeyEdit form))
              /\ value = or_none (strip (tagValueEdit form)))).
Proof.
  unfold _on_run_clicked.
  destruct (_parse_bbox float_of_str form) as [msg | bbox] eqn:Hparse.
  { exists (ShowError msg), []. rewrite app_nil_r.
    repeat split; try (cbn; lia). discriminate. }
  destruct (String.eqb_spec (strip (endpointEdit form)) "") as [Hend | Hend].
  { exists (ShowError "Please enter a Postpass endpoint URL."), [].
    rewrite app_nil_r. repeat split; try (cbn; lia). discriminate. }
  assert (Hnew : forall new : list event,
             (exists msg, @inr string BBox bbox = inl msg)
             \/ strip (endpointEdit form) = "" -> new = []).
  { intros new [[msg Hmsg] | Hempty]; [discriminate | contradiction]. }
  unfold or_none at 1.
  destruct (String.eqb_spec (strip (tagKeyEdit form)) "") as [Hkey | Hkey].
  - (* no tag key: the buildings default *)
    cbv [try_except bind ret raise].
    rewrite extract_buildings_run.
    destruct (run_sql_from_dialog
                (mkPostpassClient (strip (endpointEdit form)) 60)
                ("SELECT osm_id, tags, geom FROM postpass_pointpolygon WHERE "
                 ++ create_bbox_filter bbox "geom"
                 ++ " AND tags->>'building' = 'yes'")
                (t ++ [Built ColumnList; Built BboxFilter; Built TagClause]))
      as (r & new & -> & Hcaught & Hsql & Hhttp).
    rewrite <- app_assoc.
    assert (Hs : run_sql_calls
                   ([Built ColumnList; Built BboxFilter; Built TagClause] ++ new)
                 = run_sql_calls new)
      by (now rewrite run_sql_calls_app).
    assert (Hh : http_calls
                   ([Built ColumnList; Built BboxFilter; Built TagClause] ++ new)
                 = http_calls new)
      by (unfold http_calls; now rewrite flat_map_app).
    destruct r as [e | g].
    + rewrite (Hcaught e eq_refl).
      eexists _, _. split; [reflexivity|]. rewrite Hs, Hh, Hsql.
      repeat split; try apply Hnew; try (cbn; lia). discriminate.
    + eexists _, _. split; [reflexivity|]. rewrite Hs, Hh, Hsql.
      repeat split; try apply Hnew; try (cbn; lia).
      intros g' table key value [= <- <- <- <-]. left. repeat split; assumption.
  - (* a tag key: the table chosen in the form *)
    cbv [try_except bind ret raise].
    destruct (String.eqb_spec (geomCombo form) "") as [Htable | Htable].
    + (* no table name: the builder raises, the dialog shows it *)
      unfold build_simple_query. rewrite Htable. cbn.
      eexists _, []. rewrite app_nil_r. split; [reflexivity|].
      repeat split; try (cbn; lia). discriminate.
    + rewrite (build_simple_query_tagged bbox (Some []) _ false
                 (geomCombo form) (strip (tagKeyEdit form)) t Htable Hkey).
      match goal with
      | |- context [run_sql _ _ _ ?c ?q ?tr] =>
          destruct (run_sql_from_dialog c q tr)
            as (r & new & -> & Hcaught & Hsql & Hhttp)
      end.
      rewrite <- app_assoc.
      assert (Hs : run_sql_calls
                     ([Built ColumnList; Built BboxFilter; Built TagClause] ++ new)
                   = run_sql_calls new)
        by (now rewrite run_sql_calls_app).
      assert (Hh : http_calls
                     ([Built ColumnList; Built BboxFilter; Built TagClause] ++ new)
                   = http_calls new)
        by (unfold http_calls; now rewrite flat_map_app).
      destruct r as [e | g].
      * rewrite (Hcaught e eq_refl).
        eexists _, _. split; [reflexivity|]. rewrite Hs, Hh, Hsql.
        repeat split; try apply Hnew; try (cbn; lia). discriminate.
      * eexists _, _. split; [reflexivity|]. rewrite Hs, Hh, Hsql.
        repeat split; try apply Hnew; try (cbn; lia).
        intros g' table key value [= <- <- <- <-].
        right. split; [assumption|]. split; [reflexivity|].
        split; [|reflexivity].
        unfold or_none.
        destruct (String.eqb_spec (strip (tagKeyEdit form)) "");
          [contradiction | reflexivity].
Qed.

End ClickHandler.

Lemma append_cons_neq (a : string) (c : ascii) (b : string) :
  a ++ String c b <> a.
Proof.
  induction a as [|x a IH]; [discriminate|].
  intros [= H]. exact (IH H).
Qed.

Section ClickClaims.
Import Client Dialog QueryBuilder.

Variable url_error : string -> option string.
Variable transport : Request -> Z -> string + list Byte.byte.
Variable json_loads : list Byte.byte -> string + json.
Variable float_of_str : string -> option float.

(** X15. A click never ends in an exception: whatever the form, the
    transport and the reply, [_on_run_clicked] ends with an error message
    shown or a document fetched. *)
Theorem click_never_raises (form : Form) (t : list event) :
  exists o,
    fst (_on_run_clicked url_error transport json_loads float_of_str form t)
    = inr o.
Proof.
  destruct (on_run_clicked_run url_error transport json_loads float_of_str
              form t) as (o & new & -> & _).
  now exists o.
Qed.

(** X16. A click enters [run_sql] at most once and makes at most one HTTP
    call; when the bounding box is turned down or the endpoint is blank it
    builds nothing and calls nothing. *)
Theorem click_calls_at_most_once (form : Form) (t : list event) :
  exists new,
    snd (_on_run_clicked url_error transport json_loads float_of_str form t)
    = (t ++ new)%list
    /\ length (run_sql_calls new) <= 1
    /\ length (http_calls new) <= 1
    /\ ((exists msg, _parse_bbox float_of_str form = inl msg)
        \/ Spec.blank (endpointEdit form) -> new = []).
Proof.
  destruct (on_run_clicked_run url_error transport json_loads float_of_str
              form t) as (o & new & -> & Hsql & Hhttp & Hnone & _).
  exists new. repeat split; try assumption.
  intros [Hbox | Hblank]; apply Hnone; [now left | right].
  now apply blank_strip.
Qed.

(** X17. With no tag key in the form the click asks for buildings: the
    table chosen and the tag value typed have no effect on what is built,
    sent and returned. *)
Theorem click_without_key_ignores_table_and_value
    (form : Form) (table value : string) (t : list event) :
  Spec.blank (tagKeyEdit form) ->
  _on_run_clicked url_error transport json_loads float_of_str
    (mkForm (endpointEdit form) table (bboxEdit form) (tagKeyEdit form) value
       (layerNameEdit form)) t
  = _on_run_clicked url_error transport json_loads float_of_str form t.
Proof.
  intros Hkey. apply blank_strip in Hkey.
  unfold _on_run_clicked, _parse_bbox. cbn [bboxEdit endpointEdit tagKeyEdit].
  rewrite Hkey. reflexivity.
Qed.

(** X18. A fetched document always comes with a tag key, so the layer is
    never named after the table alone: without a name typed in the form the
    name is the table followed by the key, and by [=value] when there is a
    value. *)
Theorem layer_name_has_the_key (form : Form) (t : list event) (g : json)
    (table : string) (key value : option string) :
  fst (_on_run_clicked url_error transport json_loads float_of_str form t)
  = inr (Fetched g table key value) ->
  Spec.blank (layerNameEdit form) ->
  exists k,
    key = Some k /\ k <> ""
    /\ (layer_name form table key value = table ++ " " ++ k
        \/ exists v, value = Some v /\ v <> ""
                     /\ layer_name form table key value
                        = table ++ " " ++ k ++ "=" ++ v)
    /\ layer_name form table key value <> table.
Proof.
  intros Hrun Hname. apply blank_strip in Hname.
  destruct (on_run_clicked_run url_error transport json_loads float_of_str
              form t) as (o & new & Hclick & _ & _ & _ & Hfetched).
  rewrite Hclick in Hrun. cbn [fst] in Hrun. injection Hrun as ->.
  unfold layer_name. rewrite Hname. cbn [String.eqb].
  destruct (Hfetched g table key value eq_refl)
    as [(_ & _ & -> & ->) | (Hkey & _ & -> & ->)].
  - exists "building". split; [reflexivity|]. split; [discriminate|].
    cbn [truthy andb negb String.eqb Ascii.eqb Bool.eqb PyOpt.fstr].
    split; [|apply append_cons_neq].
    right. exists "yes". repeat split. discriminate.
  - exists (strip (tagKeyEdit form)). split; [reflexivity|].
    split; [assumption|].
    cbn [truthy PyOpt.fstr].
    destruct (String.eqb_spec (strip (tagKeyEdit form)) "") as [| _];
      [contradiction|].
    cbn [negb andb]. unfold or_none.
    destruct (String.eqb_spec (strip (tagValueEdit form)) "") as [Hv | Hv].
    + cbn [truthy]. split; [now left | apply append_cons_neq].
    + cbn [truthy PyOpt.fstr].
      destruct (String.eqb_spec (strip (tagValueEdit form)) "") as [| _];
        [contradiction|].
      cbn [negb]. split; [|apply append_cons_neq].
      right. exists (strip (tagValueEdit form)). repeat split. assumption.
Qed.

End ClickClaims.

(** A click with the key left blank, once on the polygons with a value and
    once as the form stands. *)
Lemma click_without_key_ignores_table_and_value_witness :
  Dialog._on_run_clicked Stub.url_ok (Stub.answering "{}") Stub.json_loads
    Stub.float_of_str
    (Dialog.mkForm Client.DEFAULT_POSTPASS_ENDPOINT "postpass_polygon"
       "-1.0, -1.0, 1.0, 1.0" " " "fast_food" "") []
  = Dialog._on_run_clicked Stub.url_ok (Stub.answering "{}") Stub.json_loads
      Stub.float_of_str
      (Dialog.mkForm Client.DEFAULT_POSTPASS_ENDPOINT "postpass_point"
         "-1.0, -1.0, 1.0, 1.0" " " "" "") [].
Proof.
  apply (click_without_key_ignores_table_and_value Stub.url_ok
           (Stub.answering "{}") Stub.json_loads Stub.float_of_str
           (Dialog.mkForm Client.DEFAULT_POSTPASS_ENDPOINT "postpass_point"
              "-1.0, -1.0, 1.0, 1.0" " " "" "")
           "postpass_polygon" "fast_food" []).
  reflexivity.
Defined.

(** The default name of the layer of a buildings request. *)
Lemma layer_name_has_the_key_witness :
  exists k,
    Some "building" = Some k /\ k <> ""
    /\ (Dialog.layer_name
          (Dialog.mkForm Client.DEFAULT_POSTPASS_ENDPOINT "postpass_point"
             "-1.0, -1.0, 1.0, 1.0" "" "" " ")
          "postpass_pointpolygon" (Some "building") (Some "yes")
        = "postpass_pointpolygon" ++ " " ++ k
        \/ exists v, Some "yes" = Some v /\ v <> ""
                     /\ Dialog.layer_name
                          (Dialog.mkForm Client.DEFAULT_POSTPASS_ENDPOINT
                             "postpass_point" "-1.0, -1.0, 1.0, 1.0" "" "" " ")
                          "postpass_pointpolygon" (Some "building") (Some "yes")
                        = "postpass_pointpolygon" ++ " " ++ k ++ "=" ++ v)
    /\ Dialog.layer_name
         (Dialog.mkForm Client.DEFAULT_POSTPASS_ENDPOINT "postpass_point"
            "-1.0, -1.0, 1.0, 1.0" "" "" " ")
         "postpass_pointpolygon" (Some "building") (Some "yes")
       <> "postpass_pointpolygon".
Proof.
  apply (layer_name_has_the_key Stub.url_ok (Stub.answering "{}")
           Stub.json_loads Stub.float_of_str
           (Dialog.mkForm Client.DEFAULT_POSTPASS_ENDPOINT "postpass_point"
              "-1.0, -1.0, 1.0, 1.0" "" "" " ")
           [] (JDict []) "postpass_pointpolygon" (Some "building") (Some "yes")).
  - vm_compute. reflexivity.
  - reflexivity.
Defined.

(** ** The first query builder *)

Section FirstBuilder.
Import QueryBuilder Postpass.

Lemma bbox_where_is_bbox_filter (bbox : BBox) (geom_column : string) :
  _bbox_where bbox geom_column = create_bbox_filter bbox geom_column.
Proof. reflexivity. Qed.

Lemma tag_where_last_char (tag_key tag_value : option string) (clause : string) :
  _tag_where tag_key tag_value = Some clause ->
  exists body, clause = body ++ "'".
Proof.
  unfold _tag_where. destruct (negb (truthy tag_key)); [discriminate|].
  destruct tag_value as [value|].
  - destruct (value =? ""); intros [= <-].
    + exists ("tags ? '" ++ PyOpt.fstr tag_key).
      now rewrite !append_assoc.
    + exists ("tags->>'" ++ PyOpt.fstr tag_key ++ "' = '" ++ value).
      now rewrite !append_assoc.
  - intros [= <-]. exists ("tags ? '" ++ PyOpt.fstr tag_key).
    now rewrite !append_assoc.
Qed.

(** X19. On a key and a value that carry no surrounding white space, the
    value not being the wildcard, the first builder asked for the columns
    [osm_id] and [tags] returns the very query of [build_simple_query]. *)
Theorem first_builder_agrees (table : string) (bbox : BBox)
    (tag_key tag_value : option string) :
  table <> "" ->
  (forall k, tag_key = Some k -> strip k = k) ->
  (forall v, tag_value = Some v -> strip v = v /\ v <> "*") ->
  build_simple_bbox_query (Some table) bbox tag_key tag_value
    (Some ["osm_id"; "tags"])
  = result (build_simple_query (Some table) bbox None tag_key
              (option_map (fun v => [Some v]) tag_value) false).
Proof.
  intros Htable Hk Hv. unfold result, build_simple_bbox_query.
  cbn [truthy]. destruct (String.eqb_spec table "") as [| _]; [contradiction|].
  cbn [negb]. rewrite bbox_where_is_bbox_filter.
  destruct (truthy tag_key) eqn:Hkey.
  - destruct tag_key as [k|]; [|discriminate].
    assert (Hne : k <> "") by (intros ->; discriminate).
    rewrite (build_simple_query_tagged bbox None _ false table k [] Htable Hne).
    cbn [fst]. unfold _tag_where. rewrite Hkey. cbn [negb PyOpt.fstr].
    specialize (Hk k eq_refl).
    destruct tag_value as [v|]; cbn [option_map or_empty].
    + destruct (Hv v eq_refl) as [Hstrip Hstar].
      destruct (String.eqb_spec v "") as [-> | Hempty].
      * change (create_tag_filter k (Some [Some ""]))
          with ("tags ? '" ++ strip k ++ "'").
        rewrite Hk. cbn. now rewrite !append_assoc.
      * assert (Hone : drop_empty (or_empty (Some [Some v])) = [v]).
        { cbn [or_empty drop_empty].
          destruct (String.eqb_spec v "") as [| _]; [contradiction | reflexivity]. }
        rewrite (create_tag_filter_equality k _ v Hone Hstar).
        unfold Spec.equality. rewrite Hk, Hstrip. cbn.
        now rewrite !append_assoc.
    + change (create_tag_filter k (Some []))
        with ("tags ? '" ++ strip k ++ "'").
      rewrite Hk. cbn. now rewrite !append_assoc.
  - rewrite (build_simple_query_plain bbox None _ false table tag_key []
               Htable Hkey).
    cbn [fst]. unfold _tag_where. rewrite Hkey. reflexivity.
Qed.

(** Fast food among the points, asked of both builders. *)
Lemma first_builder_agrees_witness :
  build_simple_bbox_query (Some "postpass_point")
    (-1.0, -1.0, 1.0, 1.0)%float (Some "amenity") (Some "fast_food")
    (Some ["osm_id"; "tags"])
  = result (build_simple_query (Some "postpass_point")
              (-1.0, -1.0, 1.0, 1.0)%float None (Some "amenity")
              (Some [Some "fast_food"]) false).
Proof.
  apply (first_builder_agrees "postpass_point" (-1.0, -1.0, 1.0, 1.0)%float
           (Some "amenity") (Some "fast_food")).
  - discriminate.
  - intros k [= <-]. reflexivity.
  - intros v [= <-]. split; [reflexivity | discriminate].
Defined.

(** X20. The first builder raises only for a missing or empty table name;
    otherwise its query starts with SELECT, holds the box filter, and does
    not end in a semicolon, whatever columns, key and value it is given. *)
Theorem first_builder_query_shape (table_name : option string) (bbox : BBox)
    (tag_key tag_value : option string) (select_columns : option (list string)) :
  (table_name = None \/ table_name = Some "" ->
   build_simple_bbox_query table_name bbox tag_key tag_value select_columns
   = inl (ValueError "table_name is required for Postpass query."))
  /\ (forall table, table_name = Some table -> table <> "" ->
      exists sql,
        build_simple_bbox_query table_name bbox tag_key tag_value select_columns
        = inr sql
        /\ startswith sql "SELECT " = true
        /\ contains sql (" FROM " ++ table ++ " WHERE "
                         ++ _bbox_where bbox "geom")
        /\ endswith sql ";" = false).
Proof.
  split.
  - intros [-> | ->]; reflexivity.
  - intros table -> Htable. unfold build_simple_bbox_query.
    cbn [truthy PyOpt.fstr].
    destruct (String.eqb_spec table "") as [| _]; [contradiction|].
    cbn [negb]. rewrite bbox_where_is_bbox_filter.
    eexists. split; [reflexivity|]. split; [apply startswith_app|].
    destruct (_tag_where tag_key tag_value) as [clause|] eqn:Htag.
    + destruct (tag_where_last_char _ _ _ Htag) as [body ->].
      replace (truthy (Some (body ++ "'"))) with true
        by (destruct body; reflexivity).
      cbn [app PyOpt.fstr]. rewrite join_cons.
      change (join " AND " [body ++ "'"]) with (body ++ "'"). split.
      * apply contains_app_r, contains_app_r.
        exists "". eexists. cbn [append]. rewrite !append_assoc. reflexivity.
      * rewrite <- !append_assoc. apply endswith_last_char.
    + cbn [truthy].
      change (join " AND " [create_bbox_filter bbox "geom"])
        with (create_bbox_filter bbox "geom"). split.
      * apply contains_app_r, contains_app_r.
        exists "", "". cbn [append]. rewrite !append_assoc.
        now rewrite append_nil_r.
      * destruct (bbox_filter_last_char bbox) as [body ->].
        rewrite <- !append_assoc. apply endswith_last_char.
Qed.

End FirstBuilder.

(** ** Builder and client together *)

Section BuiltQuery.
Import QueryBuilder Client.

Lemma built_query_starts_with_select (table : option string) (bbox : BBox)
    (columns : option (list string)) (tag_key : option string)
    (tag_values : option (list (option string))) (use_centroid : bool)
    (sql : string) :
  result (build_simple_query table bbox columns tag_key tag_values use_centroid)
  = inr sql ->
  exists rest, sql = "SELECT " ++ rest.
Proof.
  unfold result. destruct table as [table|]; [|discriminate].
  destruct (String.eqb_spec table "") as [-> | Htable]; [discriminate|].
  destruct (truthy tag_key) eqn:Hkey.
  - destruct tag_key as [key|]; [|discriminate].
    assert (Hne : key <> "") by (intros ->; discriminate).
    rewrite (build_simple_query_tagged bbox columns tag_values use_centroid
               table key [] Htable Hne).
    intros [= <-]. eexists. rewrite append_assoc. reflexivity.
  - rewrite (build_simple_query_plain bbox columns tag_values use_centroid
               table tag_key [] Htable Hkey).
    intros [= <-]. eexists. reflexivity.
Qed.

(** X21. A query that [build_simple_query] returns is never blank, so
    [run_sql] never answers it with "SQL query is required.", whatever the
    client, the transport and the reply. *)
Theorem built_query_passes_the_sql_check
    (table : option string) (bbox : BBox) (columns : option (list string))
    (tag_key : option string) (tag_values : option (list (option string)))
    (use_centroid : bool) (sql : string) :
  result (build_simple_query table bbox columns tag_key tag_values use_centroid)
  = inr sql ->
  ~ Spec.blank sql
  /\ forall url_error transport json_loads self,
       result (run_sql url_error transport json_loads self sql)
       <> inl (PostpassClientError "SQL query is required.").
Proof.
  intros Hbuilt.
  destruct (built_query_starts_with_select _ _ _ _ _ _ _ Hbuilt) as [rest ->].
  assert (Hstrip : strip ("SELECT " ++ rest) <> "").
  { unfold strip. cbn [append]. rewrite lstrip_nonspace_head by reflexivity.
    apply rstrip_keeps_head. reflexivity. }
  split.
  - intros Hblank. apply Hstrip, blank_strip, Hblank.
  - intros url_error transport json_loads self. unfold result. unfold_run_sql.
    destruct (endpoint self =? ""); [discriminate|].
    destruct (String.eqb_spec (strip ("SELECT " ++ rest)) "") as [| _];
      [contradiction|].
    cbn [append String.eqb Ascii.eqb Bool.eqb andb orb].
    destruct (url_error _); [discriminate|].
    destruct (transport _ _) as [msg | raw]; [cbn; discriminate|].
    destruct (json_loads raw) as [msg | payload]; [discriminate|].
    destruct (is_dict payload); discriminate.
Qed.

End BuiltQuery.

(** The fast-food query handed to a client. *)
Lemma built_query_passes_the_sql_check_witness :
  result (Client.run_sql Stub.url_ok (Stub.answering "{}") Stub.json_loads
            Stub.client
            "SELECT osm_id, tags, geom FROM postpass_point WHERE geom && ST_SetSRID(ST_MakeBox2D(ST_MakePoint(-1.0, -1.0),ST_MakePoint(1.0, 1.0)), 4326) AND tags->>'amenity' = 'fast_food'")
  <> inl (PostpassClientError "SQL query is required.").
Proof.
  apply (built_query_passes_the_sql_check (Some "postpass_point")
           (-1.0, -1.0, 1.0, 1.0)%float None (Some "amenity")
           (Some [Some "fast_food"]) false).
  vm_compute. reflexivity.
Defined.
